(** * A minimal Kubernetes client: request execution with retries

    Shallow embedding of [serviceregistration/kubernetes/client/client.go].

    The Go code talks to three collaborators that live outside the file:
    the HTTP transport ([client.Do]), the in-cluster configuration loader
    ([inClusterConfig]) and the stop channel observed by [select].  They
    are gathered in an environment record [Env]; everything the client
    itself does (validation, header set-up, the retry loop, the
    classification of status codes, the diagnostic text) is translated
    function by function. *)

From Stdlib Require Import ZArith String Ascii List Lia DecimalString.
From stdpp Require Import base option gmap strings.
Import ListNotations.

Local Open Scope Z_scope.
Local Open Scope string_scope.
Local Open Scope list_scope.

(** ** Data model *)

(** [[]byte] values and Go strings are both byte sequences; an [ascii]
    is one byte, so both are modelled by [string]. *)
Definition bytes := string.

(** [Config{Host, BearerToken, CACertPool}]; the certificate pool is
    opaque to the client and is represented by a name. *)
Record Config := mkConfig {
  Host : string;
  BearerToken : string;
  CACertPool : string
}.

(** [http.Header] is a [map[string][]string]. *)
Abbreviation HttpHeader := (gmap string (list string)).

(** [Header.Set key value] replaces whatever was stored under [key]. *)
Definition Header_Set (key value : string) (h : HttpHeader) : HttpHeader :=
  <[key := [value]]> h.

(** [*http.Request].  [Body] is a reader: [None] is a nil body and
    [Some rest] a reader whose unread remainder is [rest]. *)
Record Request := mkRequest {
  Method : string;
  URL : string;
  Header : HttpHeader;
  Body : option bytes
}.

(** [*http.Response]; [RespBody] is what [ioutil.ReadAll(resp.Body)]
    yields. *)
Record Response := mkResponse {
  StatusCode : Z;
  RespHeader : HttpHeader;
  RespBody : bytes
}.

(** The [*http.Client] built by [do]: only the trust anchors of its
    transport vary. *)
Record HttpClient := mkHttpClient {
  RootCAs : string
}.

(** The request as [attemptRequest] hands it to [client.Do] for one
    network call; [wBody] is what the body reader holds at that moment. *)
Record WireRequest := mkWire {
  wMethod : string;
  wURL : string;
  wHeader : HttpHeader;
  wBody : bytes;
  wRootCAs : string
}.

Record Metadata := mkMetadata {
  Name : string;
  Labels : option (gmap string string)
}.

Record Pod := mkPod {
  PodMetadata : option Metadata
}.

(** [type PatchOperation string]. *)
Definition PatchOperation := string.
Definition Unset : PatchOperation := "unset".
Definition Add : PatchOperation := "add".
Definition Replace : PatchOperation := "replace".

(** The dynamically typed values ([interface{}]) that end up in a JSON
    patch document. *)
Inductive GoValue :=
| VNil
| VBool (b : bool)
| VInt (n : Z)
| VString (s : string).

Record Patch := mkPatch {
  Operation : PatchOperation;
  Path : string;
  Value : GoValue
}.

(** Go's [error] values seen by callers of this package.  The three
    package-level sentinels are compared by identity, [*ErrNotFound] is
    a type of its own, [ErrorString] stands for [errors.New] and
    [fmt.Errorf] values created in this file, and [ForeignError] for
    errors handed over by [net/http], [net/url] and [encoding/json]. *)
Inductive error :=
| ErrNamespaceUnset
| ErrPodNameUnset
| ErrNotInCluster
| ErrNotFound (debuggingInfo : string)
| ErrorString (msg : string)
| ForeignError (msg : string).

Definition dquote : string := String "034"%char EmptyString.

(** The [Error()] method. *)
Definition Error (e : error) : string :=
  match e with
  | ErrNamespaceUnset => dquote +:+ "namespace" +:+ dquote +:+ " is unset"
  | ErrPodNameUnset => dquote +:+ "podName" +:+ dquote +:+ " is unset"
  | ErrNotInCluster =>
      "unable to load in-cluster configuration, KUBERNETES_SERVICE_HOST and KUBERNETES_SERVICE_PORT must be defined"
  | ErrNotFound debuggingInfo => debuggingInfo
  | ErrorString msg => msg
  | ForeignError msg => msg
  end.

(** The type assertion of an error to the not-found type. *)
Definition isErrNotFound (e : error) : bool :=
  match e with
  | ErrNotFound _ => true
  | _ => false
  end.

(** ** Collaborators *)

(** - [roundTrip past wire]: the result of [client.Do] for the request
      [wire], after the network calls [past] (oldest first); [inl] is a
      transport-level error.
    - [inClusterConfig n]: the result of the [n]-th load of the
      in-cluster configuration (counted from 0).
    - [stopClosed i]: whether the [select] that precedes attempt [i]
      takes the [<-c.stopCh] case rather than the timer case.
    - [jsonDecode], [jsonMarshal], [urlParse]: [encoding/json] and the
      URL parsing done by [http.NewRequest]. *)
Record Env := mkEnv {
  roundTrip : list WireRequest -> WireRequest -> string + Response;
  inClusterConfig : nat -> error + Config;
  stopClosed : nat -> bool;
  jsonDecode : bytes -> Pod -> string + Pod;
  jsonMarshal : list (gmap string GoValue) -> string + bytes;
  urlParse : string -> string + string
}.

(** The part of the outside world that a call changes: the network
    calls made so far and the number of configuration loads. *)
Record World := mkWorld {
  netCalls : list WireRequest;
  configLoads : nat
}.

(** [type Client struct]; the logger and the stop channel are part of
    [Env]. *)
Record Client := mkClient {
  config : Config
}.

(** The mutable objects one execution of [do] works on: the client
    (whose [config] may be replaced), the request (whose body reader
    advances), the object behind [ptrToReturnObj] ([None] for a nil
    pointer) and the world. *)
Record St := mkSt {
  cl : Client;
  rq : Request;
  obj : option Pod;
  wd : World
}.

(** ** Diagnostics *)

Definition itoa (n : Z) : string := NilZero.string_of_int (Z.to_int n).

(** [sanitizedDebuggingInfo]: the [fmt.Sprintf] with its five operands. *)
Definition sanitizedDebuggingInfo (req : Request) (reqBody : bytes) (resp : Response) : string :=
  let respBody := RespBody resp in
  "req method: " +:+ Method req +:+
  ", req url: " +:+ URL req +:+
  ", req body: " +:+ reqBody +:+
  ", resp statuscode: " +:+ itoa (StatusCode resp) +:+
  ", resp respBody: " +:+ respBody.

(** ** One attempt *)

(** The arms of [switch resp.StatusCode]. *)
Inductive StatusClass := Success | AuthFailure | NotFound | Transient | Unexpected.

Definition classify (code : Z) : StatusClass :=
  match code with
  | 200 | 201 | 202 | 204 => Success
  | 401 | 403 => AuthFailure
  | 404 => NotFound
  | 500 | 502 | 503 | 504 => Transient
  | _ => Unexpected
  end.

Definition withBody (b : option bytes) (req : Request) : Request :=
  {| Method := Method req; URL := URL req; Header := Header req; Body := b |}.

(** The request as [attemptRequest] leaves it just before [client.Do],
    together with the buffered copy [reqBody]: [ioutil.ReadAll] takes
    whatever the reader still holds, and a fresh reader over those bytes
    is installed. *)
Definition bufferBody (req : Request) : bytes * Request :=
  match Body req with
  | Some unread => (unread, withBody (Some unread) req)
  | None => ("", req)
  end.

(** [client.Do(req)] is handed the request object: method, URL, headers
    and the body reader, whose unread remainder is recorded in [wBody].
    The transport reads [req.Body] to its end (net/http: a RoundTripper
    consumes and closes the body), so the reader is left empty.
    [http.NewRequest] also stores the length of the body and a way to
    obtain it again; client.go never reads or writes either, and they
    are not part of [Request].  When the reader is already at its end,
    it is net/http that decides what reaches the server (the stored
    body again, or nothing and a length error): both are answers of
    [roundTrip].  [wBody] is what the client offers to the transport. *)
Definition wireOf (client : HttpClient) (req : Request) : WireRequest :=
  {| wMethod := Method req;
     wURL := URL req;
     wHeader := Header req;
     wBody := default "" (Body req);
     wRootCAs := RootCAs client |}.

Definition drainBody (req : Request) : Request :=
  match Body req with
  | Some _ => withBody (Some "") req
  | None => req
  end.

Definition recordCall (wire : WireRequest) (w : World) : World :=
  {| netCalls := netCalls w ++ [wire]; configLoads := configLoads w |}.

Definition recordConfigLoad (w : World) : World :=
  {| netCalls := netCalls w; configLoads := S (configLoads w) |}.

(** [attemptRequest]: returns [(shouldRetry, err)] and the updated
    objects. *)
Definition attemptRequest (E : Env) (client : HttpClient) (s : St)
  : (bool * option error) * St :=
  let c := cl s in
  let '(reqBody, req) := bufferBody (rq s) in
  let wire := wireOf client req in
  let resp_err := roundTrip E (netCalls (wd s)) wire in
  let req := drainBody req in
  let w := recordCall wire (wd s) in
  match resp_err with
  | inl e => ((false, Some (ForeignError e)), mkSt c req (obj s) w)
  | inr resp =>
    match classify (StatusCode resp) with
    | Success =>
      match obj s with
      | None => ((false, None), mkSt c req None w)
      | Some target =>
        match jsonDecode E (RespBody resp) target with
        | inl e => ((false, Some (ForeignError e)), mkSt c req (Some target) w)
        | inr decoded => ((false, None), mkSt c req (Some decoded) w)
        end
      end
    | AuthFailure =>
      let loaded := inClusterConfig E (configLoads w) in
      let w := recordConfigLoad w in
      match loaded with
      | inl e => ((false, Some e), mkSt c req (obj s) w)
      | inr config' =>
        if String.eqb (BearerToken config') (BearerToken (config c)) then
          ((false, Some (ErrorString ("bad status code: " +:+ sanitizedDebuggingInfo req reqBody resp))),
           mkSt c req (obj s) w)
        else
          ((true, Some (ErrorString ("bad status code: " +:+ sanitizedDebuggingInfo req reqBody resp))),
           mkSt (mkClient config') req (obj s) w)
      end
    | NotFound =>
      ((false, Some (ErrNotFound (sanitizedDebuggingInfo req reqBody resp))),
       mkSt c req (obj s) w)
    | Transient =>
      ((true, Some (ErrorString ("unexpected status code: " +:+ sanitizedDebuggingInfo req reqBody resp))),
       mkSt c req (obj s) w)
    | Unexpected =>
      ((false, Some (ErrorString ("unexpected status code: " +:+ sanitizedDebuggingInfo req reqBody resp))),
       mkSt c req (obj s) w)
    end
  end.

(** ** The retry loop *)

Definition maxRetries : nat := 10.

(** [for i := 0; i < maxRetries; i++ { ... }] with [n = maxRetries - i]
    iterations left; [lastErr] is the loop-carried variable. *)
Fixpoint retryLoop (E : Env) (client : HttpClient) (n i : nat)
    (lastErr : option error) (s : St) : option error * St :=
  match n with
  | O => (lastErr, s)
  | S n' =>
    if negb (Nat.eqb i 0) && stopClosed E i then (None, s)
    else
      let '((shouldRetry, err), s') := attemptRequest E client s in
      if negb shouldRetry then (err, s')
      else retryLoop E client n' (S i) err s'
  end.

Definition withHeader (h : HttpHeader) (req : Request) : Request :=
  {| Method := Method req; URL := URL req; Header := h; Body := Body req |}.

(** The request after [do] has finished setting it up. *)
Definition doRequest (c : Client) (req : Request) : Request :=
  let req := withHeader (Header_Set "Authorization" ("Bearer " +:+ BearerToken (config c)) (Header req)) req in
  withHeader (Header_Set "Accept" "application/json" (Header req)) req.

(** The HTTP client [do] creates: its transport trusts [c.config.CACertPool]. *)
Definition doClient (c : Client) : HttpClient :=
  {| RootCAs := CACertPool (config c) |}.

Definition doInit (c : Client) (req : Request) (ptrToReturnObj : option Pod) (w : World) : St :=
  mkSt c (doRequest c req) ptrToReturnObj w.

(** [do] executes the given request, retrying if necessary. *)
Definition do (E : Env) (c : Client) (req : Request) (ptrToReturnObj : option Pod) (w : World)
  : option error * St :=
  retryLoop E (doClient c) maxRetries 0 None (doInit c req ptrToReturnObj w).

(** ** The two operations *)

(** [http.NewRequest]: fails only when the URL does not parse (the
    methods used here are valid). *)
Definition NewRequest (E : Env) (method url : string) (body : option bytes) : string + Request :=
  match urlParse E url with
  | inl e => inl e
  | inr u => inr (mkRequest method u ∅ body)
  end.

Definition podEndpoint (namespace podName : string) : string :=
  "/api/v1/namespaces/" +:+ namespace +:+ "/pods/" +:+ podName.

(** [GetPod]: the result pair [(pod, err)] with the updated client and
    world. *)
Definition GetPod (E : Env) (c : Client) (namespace podName : string) (w : World)
  : (option Pod * option error) * (Client * World) :=
  let endpoint := podEndpoint namespace podName in
  let method := "GET" in
  if String.eqb namespace "" then ((None, Some ErrNamespaceUnset), (c, w))
  else if String.eqb podName "" then ((None, Some ErrPodNameUnset), (c, w))
  else
    match NewRequest E method (Host (config c) +:+ endpoint) None with
    | inl e => ((None, Some (ForeignError e)), (c, w))
    | inr req =>
      let pod := mkPod None in
      let '(err, s) := do E c req (Some pod) w in
      match err with
      | Some e => ((None, Some e), (cl s, wd s))
      | None => ((obj s, None), (cl s, wd s))
      end
    end.

Definition jsonPatch (patch : Patch) : gmap string GoValue :=
  <["op" := VString (Operation patch)]>
    (<["path" := VString (Path patch)]>
      (<["value" := Value patch]> ∅)).

(** The [for _, patch := range patches] loop: [inl] is the early
    [return errors.New(...)]. *)
Fixpoint jsonPatches (patches : list Patch) : error + list (gmap string GoValue) :=
  match patches with
  | [] => inr []
  | patch :: rest =>
    if String.eqb (Operation patch) Unset then inl (ErrorString "patch operation must be set")
    else
      match jsonPatches rest with
      | inl e => inl e
      | inr js => inr (jsonPatch patch :: js)
      end
  end.

(** [PatchPod]: the returned error with the updated client and world. *)
Definition PatchPod (E : Env) (c : Client) (namespace podName : string) (patches : list Patch) (w : World)
  : option error * (Client * World) :=
  let endpoint := podEndpoint namespace podName in
  let method := "PATCH" in
  if String.eqb namespace "" then (Some ErrNamespaceUnset, (c, w))
  else if String.eqb podName "" then (Some ErrPodNameUnset, (c, w))
  else if Nat.eqb (length patches) 0 then (None, (c, w))
  else
    match jsonPatches patches with
    | inl e => (Some e, (c, w))
    | inr js =>
      match jsonMarshal E js with
      | inl e => (Some (ForeignError e), (c, w))
      | inr body =>
        match NewRequest E method (Host (config c) +:+ endpoint) (Some body) with
        | inl e => (Some (ForeignError e), (c, w))
        | inr req =>
          let req := withHeader (Header_Set "Content-Type" "application/json-patch+json" (Header req)) req in
          let '(err, s) := do E c req None w in
          (err, (cl s, wd s))
        end
      end
    end.

(** [New] instantiates a client: it loads the in-cluster configuration
    once; the logger and the stop channel it stores are part of [Env]. *)
Definition New (E : Env) (w : World) : (option Client * option error) * World :=
  let loaded := inClusterConfig E (configLoads w) in
  let w := recordConfigLoad w in
  match loaded with
  | inl e => ((None, Some e), w)
  | inr config => ((Some (mkClient config), None), w)
  end.

(** The status codes that [switch resp.StatusCode] names, arm by arm. *)
Definition successCodes : list Z := [200; 201; 202; 204].
Definition authCodes : list Z := [401; 403].
Definition transientCodes : list Z := [500; 502; 503; 504].

(** The headers of a request once [do] has set it up, starting from the
    headers [h] the caller put on it. *)
Definition doHeaders (c : Client) (h : HttpHeader) : HttpHeader :=
  Header_Set "Accept" "application/json"
    (Header_Set "Authorization" ("Bearer " +:+ BearerToken (config c)) h).

(** ** Runs of the retry loop, attempt by attempt *)

(** [stateAt E client s k] is the state in which attempt [k] starts when
    the loop is entered in state [s] and gets that far; [outcomeAt] is
    what that attempt returns. *)
Fixpoint stateAt (E : Env) (client : HttpClient) (s : St) (k : nat) : St :=
  match k with
  | O => s
  | S j => snd (attemptRequest E client (stateAt E client s j))
  end.

Definition outcomeAt (E : Env) (client : HttpClient) (s : St) (k : nat) : bool * option error :=
  fst (attemptRequest E client (stateAt E client s k)).

(** Attempt 0 always runs; attempt [j+1] runs when attempt [j] ran and
    asked for a retry, and the wait before attempt [j+1] ended with the
    timer and not with the stop channel. *)
Fixpoint runsAttempt (E : Env) (client : HttpClient) (s : St) (k : nat) : Prop :=
  match k with
  | O => True
  | S j => runsAttempt E client s j
           /\ fst (outcomeAt E client s j) = true
           /\ stopClosed E (S j) = false
  end.

(** The same notions for an execution of [do]. *)
Definition doStateAt (E : Env) (c : Client) (req : Request) (ptr : option Pod) (w : World) (k : nat) : St :=
  stateAt E (doClient c) (doInit c req ptr w) k.

Definition doOutcomeAt (E : Env) (c : Client) (req : Request) (ptr : option Pod) (w : World) (k : nat)
  : bool * option error :=
  outcomeAt E (doClient c) (doInit c req ptr w) k.

Definition doRunsAttempt (E : Env) (c : Client) (req : Request) (ptr : option Pod) (w : World) (k : nat) : Prop :=
  runsAttempt E (doClient c) (doInit c req ptr w) k.

(** The response that attempt [k] of an execution of [do] receives. *)
Definition doReceivesAt (E : Env) (c : Client) (req : Request) (ptr : option Pod) (w : World) (k : nat)
  : string + Response :=
  let s := doStateAt E c req ptr w k in
  roundTrip E (netCalls (wd s)) (wireOf (doClient c) (rq s)).

(** The buffered copy [reqBody] that attempt [k] of an execution of [do]
    takes from [req.Body], and that its diagnostics show. *)
Definition reqBodyAt (E : Env) (c : Client) (req : Request) (ptr : option Pod) (w : World) (k : nat)
  : bytes :=
  fst (bufferBody (rq (doStateAt E c req ptr w k))).

(** The network calls made by an execution that starts in world [w] and
    ends in world [w']. *)
Definition newCalls (w w' : World) : list WireRequest :=
  drop (length (netCalls w)) (netCalls w').

(** The body of one iteration of the loop once its wait is over. *)
Definition afterWait (E : Env) (client : HttpClient) (n' i : nat) (st : St) : option error * St :=
  let '((shouldRetry, err), s') := attemptRequest E client st in
  if negb shouldRetry then (err, s')
  else retryLoop E client n' (S i) err s'.

(** The environment [E] with another behaviour of the stop channel. *)
Definition withStop (stop : nat -> bool) (E : Env) : Env :=
  {| roundTrip := roundTrip E;
     inClusterConfig := inClusterConfig E;
     stopClosed := stop;
     jsonDecode := jsonDecode E;
     jsonMarshal := jsonMarshal E;
     urlParse := urlParse E |}.

(** ** Where the errors of [do] come from *)

(** The labels put in front of the diagnostic text: [fmt.Errorf] with
    one of two prefixes, or none for the not-found error. *)
Definition statusPrefixes : list string :=
  ["bad status code: "; "unexpected status code: "; ""].

(** An error is [surfaced] by an execution for the request [req] when it
    is handed over unchanged by the transport, the decoder or the
    configuration loader, or when its text is a label followed by the
    method and URL of [req], a buffered body, and the status code and
    body of a response the transport gave. *)
Inductive surfaced (E : Env) (req : Request) : error -> Prop :=
| surfaced_transport past wire text :
    roundTrip E past wire = inl text ->
    surfaced E req (ForeignError text)
| surfaced_decode body target text :
    jsonDecode E body target = inl text ->
    surfaced E req (ForeignError text)
| surfaced_config n e :
    inClusterConfig E n = inl e ->
    surfaced E req e
| surfaced_status label reqBody past wire resp e :
    roundTrip E past wire = inr resp ->
    In label statusPrefixes ->
    reqBody = "" \/ Body req = Some reqBody ->
    Error e = label +:+ "req method: " +:+ Method req +:+
              ", req url: " +:+ URL req +:+
              ", req body: " +:+ reqBody +:+
              ", resp statuscode: " +:+ itoa (StatusCode resp) +:+
              ", resp respBody: " +:+ RespBody resp ->
    surfaced E req e.

(** The request object of a running execution differs from the request
    [req] passed to [do] in its headers and in how far its body has
    been read. *)
Definition tracks (req r : Request) : Prop :=
  Method r = Method req /\ URL r = URL req
  /\ (default "" (Body r) = "" \/ Body req = Some (default "" (Body r))).

(** [contains needle hay]: [needle] occurs in [hay] as a substring. *)
Fixpoint contains (needle hay : string) : bool :=
  String.prefix needle hay
  || match hay with
     | EmptyString => false
     | String _ rest => contains needle rest
     end.

(** ** Concrete collaborators for worked executions *)

(** A server that answers the [n]-th network call with the [n]-th entry
    of [answers] (and refuses connections afterwards), a configuration
    loader that yields the entries of [configs] in turn, a stop channel
    described by [stop], and trivial JSON and URL handling. *)
Definition mockEnv (answers : list (string + Response)) (configs : list (error + Config))
    (stop : nat -> bool) : Env :=
  {| roundTrip := fun past _ => nth (length past) answers (inl "connection refused");
     inClusterConfig := fun n => nth n configs (inl ErrNotInCluster);
     stopClosed := stop;
     jsonDecode := fun body _ => inr (mkPod (Some (mkMetadata body None)));
     jsonMarshal := fun _ => inr "[{op,path,value}]";
     urlParse := fun u => inr u |}.

(** A server that rejects every request and echoes the credential it
    was sent in the response body. *)
Definition echoEnv : Env :=
  {| roundTrip := fun _ wire =>
       inr (mkResponse 400 ∅
              (match wHeader wire !! "Authorization" with
               | Some (v :: _) => v
               | _ => ""
               end));
     inClusterConfig := fun _ => inl ErrNotInCluster;
     stopClosed := fun _ => false;
     jsonDecode := fun _ target => inr target;
     jsonMarshal := fun _ => inr "[]";
     urlParse := fun u => inr u |}.

Definition reply (code : Z) (body : bytes) : string + Response :=
  inr (mkResponse code ∅ body).

Definition neverStopped : nat -> bool := fun _ => false.
Definition alwaysStopped : nat -> bool := fun _ => true.

Definition clientWith (token : string) : Client :=
  mkClient (mkConfig "https://10.0.0.1:443" token "ca.crt").

Definition freshWorld : World := mkWorld [] 0.

Definition getRequest : Request :=
  mkRequest "GET" "https://10.0.0.1:443/api/v1/namespaces/default/pods/vault-0" ∅ None.

(** ** Facts about one attempt *)

Lemma bufferBody_fst req : fst (bufferBody req) = default "" (Body req).
Proof. unfold bufferBody. destruct (Body req); reflexivity. Qed.

Lemma bufferBody_snd req : snd (bufferBody req) = req.
Proof.
  unfold bufferBody. destruct req as [m u h [b|]]; reflexivity.
Qed.

Lemma bufferBody_eq req : bufferBody req = (default "" (Body req), req).
Proof.
  rewrite (surjective_pairing (bufferBody req)).
  by rewrite bufferBody_fst, bufferBody_snd.
Qed.

Lemma drainBody_Method req : Method (drainBody req) = Method req.
Proof. destruct req as [m u h [b|]]; reflexivity. Qed.

Lemma drainBody_URL req : URL (drainBody req) = URL req.
Proof. destruct req as [m u h [b|]]; reflexivity. Qed.

Lemma drainBody_Header req : Header (drainBody req) = Header req.
Proof. destruct req as [m u h [b|]]; reflexivity. Qed.

Lemma drainBody_Body req : Body (drainBody req) = (fun _ => "") <$> Body req.
Proof. destruct req as [m u h [b|]]; reflexivity. Qed.

Lemma drainBody_idem req : drainBody (drainBody req) = drainBody req.
Proof. unfold drainBody. destruct req as [m u h [b|]]; reflexivity. Qed.

Lemma sanitizedDebuggingInfo_drain req reqBody resp :
  sanitizedDebuggingInfo (drainBody req) reqBody resp = sanitizedDebuggingInfo req reqBody resp.
Proof.
  unfold sanitizedDebuggingInfo. by rewrite drainBody_Method, drainBody_URL.
Qed.

(** Every attempt makes exactly one network call, whatever its outcome,
    and leaves the body reader at its end. *)
Lemma attemptRequest_wd E client s :
  netCalls (wd (snd (attemptRequest E client s))) = netCalls (wd s) ++ [wireOf client (rq s)].
Proof.
  unfold attemptRequest. rewrite bufferBody_eq.
  destruct (roundTrip _ _ _) as [e|resp]; [reflexivity|].
  destruct (classify _); try reflexivity.
  - destruct (obj s) as [t|]; [|reflexivity].
    destruct (jsonDecode _ _ _); reflexivity.
  - destruct (inClusterConfig _ _) as [e|cfg]; [reflexivity|].
    destruct (String.eqb _ _); reflexivity.
Qed.

Lemma attemptRequest_rq E client s :
  rq (snd (attemptRequest E client s)) = drainBody (rq s).
Proof.
  unfold attemptRequest. rewrite bufferBody_eq.
  destruct (roundTrip _ _ _) as [e|resp]; [reflexivity|].
  destruct (classify _); try reflexivity.
  - destruct (obj s) as [t|]; [|reflexivity].
    destruct (jsonDecode _ _ _); reflexivity.
  - destruct (inClusterConfig _ _) as [e|cfg]; [reflexivity|].
    destruct (String.eqb _ _); reflexivity.
Qed.

(** What an attempt returns, by what the transport and the
    configuration loader answer. *)
Section AttemptCases.
Context (E : Env) (client : HttpClient) (s : St).

Let answer := roundTrip E (netCalls (wd s)) (wireOf client (rq s)).
Let reqBody := default "" (Body (rq s)).

Lemma attempt_transport_error e :
  answer = inl e ->
  fst (attemptRequest E client s) = (false, Some (ForeignError e)).
Proof.
  unfold answer, attemptRequest. rewrite bufferBody_eq. by intros ->.
Qed.

Lemma attempt_not_found resp :
  answer = inr resp -> classify (StatusCode resp) = NotFound ->
  fst (attemptRequest E client s)
  = (false, Some (ErrNotFound (sanitizedDebuggingInfo (rq s) reqBody resp))).
Proof.
  unfold answer, attemptRequest. rewrite bufferBody_eq. intros -> ->.
  simpl. by rewrite sanitizedDebuggingInfo_drain.
Qed.

Lemma attempt_transient resp :
  answer = inr resp -> classify (StatusCode resp) = Transient ->
  fst (attemptRequest E client s)
  = (true, Some (ErrorString ("unexpected status code: "
                              +:+ sanitizedDebuggingInfo (rq s) reqBody resp))).
Proof.
  unfold answer, attemptRequest. rewrite bufferBody_eq. intros -> ->.
  simpl. by rewrite sanitizedDebuggingInfo_drain.
Qed.

Lemma attempt_unexpected resp :
  answer = inr resp -> classify (StatusCode resp) = Unexpected ->
  fst (attemptRequest E client s)
  = (false, Some (ErrorString ("unexpected status code: "
                               +:+ sanitizedDebuggingInfo (rq s) reqBody resp))).
Proof.
  unfold answer, attemptRequest. rewrite bufferBody_eq. intros -> ->.
  simpl. by rewrite sanitizedDebuggingInfo_drain.
Qed.

Lemma attempt_auth_config_error resp e :
  answer = inr resp -> classify (StatusCode resp) = AuthFailure ->
  inClusterConfig E (configLoads (wd s)) = inl e ->
  fst (attemptRequest E client s) = (false, Some e).
Proof.
  unfold answer, attemptRequest. rewrite bufferBody_eq. intros -> -> H.
  simpl. by rewrite H.
Qed.

Lemma attempt_auth_same_token resp cfg :
  answer = inr resp -> classify (StatusCode resp) = AuthFailure ->
  inClusterConfig E (configLoads (wd s)) = inr cfg ->
  BearerToken cfg = BearerToken (config (cl s)) ->
  fst (attemptRequest E client s)
  = (false, Some (ErrorString ("bad status code: "
                               +:+ sanitizedDebuggingInfo (rq s) reqBody resp))).
Proof.
  unfold answer, attemptRequest. rewrite bufferBody_eq. intros -> -> H Htok.
  simpl. rewrite H, Htok, String.eqb_refl. simpl.
  by rewrite sanitizedDebuggingInfo_drain.
Qed.

Lemma attempt_auth_fresh_token resp cfg :
  answer = inr resp -> classify (StatusCode resp) = AuthFailure ->
  inClusterConfig E (configLoads (wd s)) = inr cfg ->
  BearerToken cfg <> BearerToken (config (cl s)) ->
  attemptRequest E client s
  = ((true, Some (ErrorString ("bad status code: "
                               +:+ sanitizedDebuggingInfo (rq s) reqBody resp))),
     mkSt (mkClient cfg) (drainBody (rq s)) (obj s)
          (recordConfigLoad (recordCall (wireOf client (rq s)) (wd s)))).
Proof.
  unfold answer, attemptRequest. rewrite bufferBody_eq. intros -> -> H Htok.
  simpl. rewrite H. apply String.eqb_neq in Htok. rewrite Htok. simpl.
  by rewrite sanitizedDebuggingInfo_drain.
Qed.

Lemma attempt_success_no_sink resp :
  answer = inr resp -> classify (StatusCode resp) = Success ->
  obj s = None ->
  fst (attemptRequest E client s) = (false, None).
Proof.
  unfold answer, attemptRequest. rewrite bufferBody_eq. intros -> -> ->.
  reflexivity.
Qed.
End AttemptCases.

(** ** Facts about the loop *)

Section Loop.
Context (E : Env) (client : HttpClient) (s : St).

Lemma attemptRequest_at k :
  attemptRequest E client (stateAt E client s k)
  = (outcomeAt E client s k, stateAt E client s (S k)).
Proof. unfold outcomeAt. simpl. apply surjective_pairing. Qed.

Lemma retryLoop_S n' i lastErr st :
  retryLoop E client (S n') i lastErr st
  = if negb (Nat.eqb i 0) && stopClosed E i then (None, st)
    else afterWait E client n' i st.
Proof. reflexivity. Qed.

(** An execution in which attempt [k] runs is, from there on, the rest
    of iteration [k]. *)
Lemma retryLoop_runs k : forall n,
  (k < n)%nat -> runsAttempt E client s k ->
  retryLoop E client n 0 None s
  = afterWait E client (n - S k) k (stateAt E client s k).
Proof.
  induction k as [|j IH]; intros n Hn Hrun.
  - destruct n as [|n']; [lia|]. rewrite retryLoop_S. simpl.
    by rewrite Nat.sub_0_r.
  - destruct Hrun as (Hrun & Hretry & Hstop).
    rewrite (IH n) by (lia || done).
    unfold afterWait at 1. rewrite attemptRequest_at.
    destruct (outcomeAt E client s j) as [r e] eqn:Ho.
    simpl in Hretry. subst r. simpl negb. cbv iota.
    replace (n - S j)%nat with (S (n - S (S j))) by lia.
    rewrite retryLoop_S, Hstop. reflexivity.
Qed.

(** Attempt [k] runs and is terminal: its error (or nil) is returned. *)
Lemma retryLoop_terminal k n :
  (k < n)%nat -> runsAttempt E client s k ->
  fst (outcomeAt E client s k) = false ->
  retryLoop E client n 0 None s
  = (snd (outcomeAt E client s k), stateAt E client s (S k)).
Proof.
  intros Hn Hrun Hterm. rewrite (retryLoop_runs k) by done.
  unfold afterWait. rewrite attemptRequest_at.
  destruct (outcomeAt E client s k) as [r e]. simpl in *. by subst r.
Qed.

(** Attempt [j] asks for a retry and the next wait ends with the stop
    channel: nil is returned and attempt [j+1] never starts. *)
Lemma retryLoop_cancelled j n :
  (S j < n)%nat -> runsAttempt E client s j ->
  fst (outcomeAt E client s j) = true ->
  stopClosed E (S j) = true ->
  retryLoop E client n 0 None s = (None, stateAt E client s (S j)).
Proof.
  intros Hn Hrun Hretry Hstop. rewrite (retryLoop_runs j) by (lia || done).
  unfold afterWait. rewrite attemptRequest_at.
  destruct (outcomeAt E client s j) as [r e]. simpl in Hretry. subst r.
  simpl negb. cbv iota.
  replace (n - S j)%nat with (S (n - S (S j))) by lia.
  rewrite retryLoop_S, Hstop. reflexivity.
Qed.

(** The last attempt asks for a retry: the loop ends and [lastErr]
    holds that attempt's error. *)
Lemma retryLoop_exhausted k :
  runsAttempt E client s k ->
  fst (outcomeAt E client s k) = true ->
  retryLoop E client (S k) 0 None s
  = (snd (outcomeAt E client s k), stateAt E client s (S k)).
Proof.
  intros Hrun Hretry. rewrite (retryLoop_runs k) by (lia || done).
  unfold afterWait. rewrite attemptRequest_at.
  destruct (outcomeAt E client s k) as [r e]. simpl in Hretry. subst r.
  simpl negb. cbv iota. by rewrite Nat.sub_diag.
Qed.

Lemma stateAt_netCalls_length k :
  length (netCalls (wd (stateAt E client s k))) = (length (netCalls (wd s)) + k)%nat.
Proof.
  induction k as [|j IH]; simpl; [lia|].
  rewrite attemptRequest_wd, length_app, IH. simpl. lia.
Qed.

Lemma stateAt_netCalls_prefix k :
  exists calls, netCalls (wd (stateAt E client s k)) = netCalls (wd s) ++ calls
                /\ length calls = k.
Proof.
  induction k as [|j (calls & Heq & Hlen)]; simpl.
  - exists []. by rewrite app_nil_r.
  - exists (calls ++ [wireOf client (rq (stateAt E client s j))]).
    rewrite attemptRequest_wd, Heq, <- app_assoc, length_app. simpl.
    split; [done | lia].
Qed.

Lemma newCalls_stateAt_length k :
  length (newCalls (wd s) (wd (stateAt E client s k))) = k.
Proof.
  unfold newCalls. destruct (stateAt_netCalls_prefix k) as (calls & -> & <-).
  by rewrite drop_app_length.
Qed.

(** The request object after [k] attempts: only its body reader moved. *)
Lemma stateAt_rq k :
  rq (stateAt E client s k) = match k with O => rq s | S _ => drainBody (rq s) end.
Proof.
  induction k as [|j IH]; [reflexivity|].
  simpl. rewrite attemptRequest_rq, IH.
  destruct j; [reflexivity | apply drainBody_idem].
Qed.

Lemma runsAttempt_le k j :
  (j <= k)%nat -> runsAttempt E client s k -> runsAttempt E client s j.
Proof.
  induction k as [|k IH]; intros Hle Hrun.
  - by replace j with 0%nat by lia.
  - destruct (decide (j = S k)) as [->|Hne]; [done|].
    apply IH; [lia | apply Hrun].
Qed.
End Loop.

(** ** Executions of [do] *)

Section DoRuns.
Context (E : Env) (c : Client) (req : Request) (ptr : option Pod) (w : World).

Lemma do_terminal k :
  (k < maxRetries)%nat -> doRunsAttempt E c req ptr w k ->
  fst (doOutcomeAt E c req ptr w k) = false ->
  do E c req ptr w
  = (snd (doOutcomeAt E c req ptr w k), doStateAt E c req ptr w (S k)).
Proof. apply retryLoop_terminal. Qed.

Lemma do_cancelled j :
  (S j < maxRetries)%nat -> doRunsAttempt E c req ptr w j ->
  fst (doOutcomeAt E c req ptr w j) = true ->
  stopClosed E (S j) = true ->
  do E c req ptr w = (None, doStateAt E c req ptr w (S j)).
Proof. apply retryLoop_cancelled. Qed.

Lemma do_exhausted :
  doRunsAttempt E c req ptr w (pred maxRetries) ->
  fst (doOutcomeAt E c req ptr w (pred maxRetries)) = true ->
  do E c req ptr w
  = (snd (doOutcomeAt E c req ptr w (pred maxRetries)),
     doStateAt E c req ptr w maxRetries).
Proof. apply retryLoop_exhausted. Qed.

Lemma doStateAt_calls k :
  length (newCalls w (wd (doStateAt E c req ptr w k))) = k.
Proof. apply (newCalls_stateAt_length E (doClient c) (doInit c req ptr w)). Qed.
End DoRuns.

(** An attempt that asks for a retry always hands back an error. *)
Lemma attemptRequest_retry_error E client s :
  fst (fst (attemptRequest E client s)) = true ->
  exists msg, snd (fst (attemptRequest E client s)) = Some (ErrorString msg).
Proof.
  unfold attemptRequest. rewrite bufferBody_eq.
  destruct (roundTrip _ _ _) as [e|resp]; [done|].
  destruct (classify _); simpl; try done; try by eexists.
  - destruct (obj s) as [t|]; [|done]. by destruct (jsonDecode _ _ _).
  - destruct (inClusterConfig _ _) as [e|cfg]; [done|].
    destruct (String.eqb _ _); simpl; [done | by eexists].
Qed.

Lemma doOutcomeAt_retry_error E c req ptr w k :
  fst (doOutcomeAt E c req ptr w k) = true ->
  exists msg, snd (doOutcomeAt E c req ptr w k) = Some (ErrorString msg).
Proof. unfold doOutcomeAt, outcomeAt. apply attemptRequest_retry_error. Qed.

Lemma classify_401_403 code : code = 401 \/ code = 403 -> classify code = AuthFailure.
Proof. by intros [-> | ->]. Qed.

(** ** The claims *)

(** C8. When the namespace or the pod name is empty, [GetPod] and
    [PatchPod] both return at once the matching unset error,
    [ErrNamespaceUnset] for an empty namespace and otherwise
    [ErrPodNameUnset], two different errors, and make no network call:
    client and world come back untouched. *)
Theorem C8_unset_identifiers_fail_fast
    (E : Env) (c : Client) (namespace podName : string) (patches : list Patch) (w : World) :
  namespace = "" \/ podName = "" ->
  let expected := if String.eqb namespace "" then ErrNamespaceUnset else ErrPodNameUnset in
  GetPod E c namespace podName w = ((None, Some expected), (c, w))
  /\ PatchPod E c namespace podName patches w = (Some expected, (c, w))
  /\ newCalls w (snd (snd (GetPod E c namespace podName w))) = []
  /\ newCalls w (snd (snd (PatchPod E c namespace podName patches w))) = []
  /\ ErrNamespaceUnset <> ErrPodNameUnset.
Proof.
  intros Hempty. unfold GetPod, PatchPod, newCalls.
  destruct (String.eqb_spec namespace "") as [Hns|Hns]; simpl.
  - by rewrite drop_all.
  - destruct Hempty as [?| ->]; [done|]. simpl. by rewrite drop_all.
Qed.

Lemma C8_unset_identifiers_fail_fast_witness :
  GetPod echoEnv (clientWith "t") "default" "" freshWorld
    = ((None, Some ErrPodNameUnset), (clientWith "t", freshWorld))
  /\ PatchPod echoEnv (clientWith "t") "default" "" [mkPatch Add "/metadata/labels/a" (VString "b")] freshWorld
    = (Some ErrPodNameUnset, (clientWith "t", freshWorld)).
Proof.
  pose proof (C8_unset_identifiers_fail_fast echoEnv (clientWith "t") "default" ""
                [mkPatch Add "/metadata/labels/a" (VString "b")] freshWorld
                (or_intror eq_refl)) as H.
  split; [exact (proj1 H) | exact (proj1 (proj2 H))].
Defined.

(** C5. When an attempt of an execution receives a 404 response, [do]
    returns right after that attempt: the error is the not-found error
    carrying the diagnostic text of that response, the type assertion to
    the not-found type succeeds on it, and the network call of that
    attempt is the last one. *)
Theorem C5_not_found_is_terminal_and_typed
    (E : Env) (c : Client) (req : Request) (ptr : option Pod) (w : World)
    (k : nat) (resp : Response) :
  (k < maxRetries)%nat ->
  doRunsAttempt E c req ptr w k ->
  doReceivesAt E c req ptr w k = inr resp ->
  StatusCode resp = 404 ->
  let sk := doStateAt E c req ptr w k in
  let err := ErrNotFound (sanitizedDebuggingInfo (rq sk) (default "" (Body (rq sk))) resp) in
  fst (do E c req ptr w) = Some err
  /\ isErrNotFound err = true
  /\ length (newCalls w (wd (snd (do E c req ptr w)))) = S k.
Proof.
  intros Hk Hrun Hrecv Hcode sk err.
  assert (Hout : doOutcomeAt E c req ptr w k = (false, Some err)).
  { apply attempt_not_found with (resp := resp); [exact Hrecv|].
    by rewrite Hcode. }
  rewrite (do_terminal E c req ptr w k Hk Hrun) by (by rewrite Hout).
  rewrite Hout. cbn [fst snd]. split; [done|]. split; [done|].
  apply doStateAt_calls.
Qed.

Lemma C5_not_found_is_terminal_and_typed_witness :
  exists info,
    fst (do (mockEnv [reply 503 "busy"; reply 404 "no such pod"] [] neverStopped)
            (clientWith "t") getRequest (Some (mkPod None)) freshWorld)
    = Some (ErrNotFound info).
Proof.
  eexists.
  refine (proj1 (C5_not_found_is_terminal_and_typed
            (mockEnv [reply 503 "busy"; reply 404 "no such pod"] [] neverStopped)
            (clientWith "t") getRequest (Some (mkPod None)) freshWorld
            1 (mkResponse 404 ∅ "no such pod") _ _ _ _)).
  - unfold maxRetries. lia.
  - vm_compute. auto.
  - vm_compute. reflexivity.
  - reflexivity.
Defined.

(** C4. When an attempt of an execution receives a 401 or 403 response
    and the configuration loaded afresh carries the bearer token the
    client already holds, [do] returns right after that attempt with a
    "bad status code" error, and the network call of that attempt is the
    last one (the only one when it is attempt 0). *)
Theorem C4_unchanged_token_is_terminal
    (E : Env) (c : Client) (req : Request) (ptr : option Pod) (w : World)
    (k : nat) (resp : Response) (cfg : Config) :
  (k < maxRetries)%nat ->
  doRunsAttempt E c req ptr w k ->
  doReceivesAt E c req ptr w k = inr resp ->
  StatusCode resp = 401 \/ StatusCode resp = 403 ->
  let sk := doStateAt E c req ptr w k in
  inClusterConfig E (configLoads (wd sk)) = inr cfg ->
  BearerToken cfg = BearerToken (config (cl sk)) ->
  fst (do E c req ptr w)
  = Some (ErrorString ("bad status code: "
                       +:+ sanitizedDebuggingInfo (rq sk) (default "" (Body (rq sk))) resp))
  /\ length (newCalls w (wd (snd (do E c req ptr w)))) = S k.
Proof.
  intros Hk Hrun Hrecv Hcode sk Hcfg Htok.
  pose proof (attempt_auth_same_token E (doClient c) sk resp cfg Hrecv
                (classify_401_403 _ Hcode) Hcfg Htok) as Hout.
  change (fst (attemptRequest E (doClient c) sk)) with (doOutcomeAt E c req ptr w k) in Hout.
  rewrite (do_terminal E c req ptr w k Hk Hrun) by (by rewrite Hout).
  rewrite Hout. cbn [fst snd]. split; [done|]. apply doStateAt_calls.
Qed.

Lemma C4_unchanged_token_is_terminal_witness :
  let E := mockEnv [reply 401 "Unauthorized"; reply 200 "{}"]
                   [inr (mkConfig "https://10.0.0.1:443" "t" "ca.crt")] neverStopped in
  (exists msg, fst (do E (clientWith "t") getRequest (Some (mkPod None)) freshWorld)
               = Some (ErrorString msg))
  /\ length (newCalls freshWorld
               (wd (snd (do E (clientWith "t") getRequest (Some (mkPod None)) freshWorld)))) = 1%nat.
Proof.
  intros E.
  assert (H := C4_unchanged_token_is_terminal E (clientWith "t") getRequest
                 (Some (mkPod None)) freshWorld 0 (mkResponse 401 ∅ "Unauthorized")
                 (mkConfig "https://10.0.0.1:443" "t" "ca.crt")).
  simpl in H. specialize (H ltac:(unfold maxRetries; lia) I eq_refl (or_introl eq_refl) eq_refl eq_refl).
  destruct H as [H1 H2]. split; [eexists; exact H1 | exact H2].
Defined.

(** C9. When an attempt of an execution receives a 401 or 403 response
    and loading the in-cluster configuration fails, [do] returns right
    after that attempt with the loader's error itself (for instance
    [ErrNotInCluster]); the authentication failure is not reported, and
    the network call of that attempt is the last one. *)
Theorem C9_config_reload_failure_is_terminal
    (E : Env) (c : Client) (req : Request) (ptr : option Pod) (w : World)
    (k : nat) (resp : Response) (e : error) :
  (k < maxRetries)%nat ->
  doRunsAttempt E c req ptr w k ->
  doReceivesAt E c req ptr w k = inr resp ->
  StatusCode resp = 401 \/ StatusCode resp = 403 ->
  inClusterConfig E (configLoads (wd (doStateAt E c req ptr w k))) = inl e ->
  fst (do E c req ptr w) = Some e
  /\ length (newCalls w (wd (snd (do E c req ptr w)))) = S k.
Proof.
  intros Hk Hrun Hrecv Hcode Hcfg.
  pose proof (attempt_auth_config_error E (doClient c) _ resp e Hrecv
                (classify_401_403 _ Hcode) Hcfg) as Hout.
  change (fst (attemptRequest E (doClient c) (doStateAt E c req ptr w k)))
    with (doOutcomeAt E c req ptr w k) in Hout.
  rewrite (do_terminal E c req ptr w k Hk Hrun) by (by rewrite Hout).
  rewrite Hout. cbn [fst snd]. split; [done|]. apply doStateAt_calls.
Qed.

Lemma C9_config_reload_failure_is_terminal_witness :
  let E := mockEnv [reply 403 "Forbidden"; reply 200 "{}"] [] neverStopped in
  fst (do E (clientWith "t") getRequest None freshWorld) = Some ErrNotInCluster
  /\ length (newCalls freshWorld (wd (snd (do E (clientWith "t") getRequest None freshWorld)))) = 1%nat.
Proof.
  intros E.
  apply (C9_config_reload_failure_is_terminal E (clientWith "t") getRequest None freshWorld
           0 (mkResponse 403 ∅ "Forbidden") ErrNotInCluster).
  - unfold maxRetries. lia.
  - exact I.
  - reflexivity.
  - right. reflexivity.
  - reflexivity.
Defined.

(** C6. When an attempt asked for a retry and the wait before the next
    attempt ends because the stop channel is closed, [do] returns nil,
    and the network calls made are those of the attempts before the
    wait: none is made afterwards. *)
Theorem C6_cancelled_wait_returns_nil
    (E : Env) (c : Client) (req : Request) (ptr : option Pod) (w : World) (j : nat) :
  (S j < maxRetries)%nat ->
  doRunsAttempt E c req ptr w j ->
  fst (doOutcomeAt E c req ptr w j) = true ->
  stopClosed E (S j) = true ->
  fst (do E c req ptr w) = None
  /\ wd (snd (do E c req ptr w)) = wd (doStateAt E c req ptr w (S j))
  /\ length (newCalls w (wd (snd (do E c req ptr w)))) = S j.
Proof.
  intros Hj Hrun Hretry Hstop.
  rewrite (do_cancelled E c req ptr w j Hj Hrun Hretry Hstop). cbn [fst snd].
  split; [done|]. split; [done|]. apply doStateAt_calls.
Qed.

Lemma C6_cancelled_wait_returns_nil_witness :
  let E := mockEnv [reply 503 "busy"; reply 200 "{}"] [] (fun i => Nat.eqb i 1) in
  fst (do E (clientWith "t") getRequest None freshWorld) = None
  /\ length (newCalls freshWorld (wd (snd (do E (clientWith "t") getRequest None freshWorld)))) = 1%nat.
Proof.
  intros E.
  destruct (C6_cancelled_wait_returns_nil E (clientWith "t") getRequest None freshWorld 0)
    as (H1 & _ & H3).
  - unfold maxRetries. lia.
  - exact I.
  - reflexivity.
  - reflexivity.
  - split; [exact H1 | exact H3].
Defined.

(** C3. When each of the ten attempts is classified retryable and no
    wait is ended by the stop channel, [do] makes exactly ten network
    calls and returns the error of the tenth attempt, which is not
    nil. *)
Theorem C3_retry_budget_exhausted
    (E : Env) (c : Client) (req : Request) (ptr : option Pod) (w : World) :
  (forall k, (k < maxRetries)%nat -> fst (doOutcomeAt E c req ptr w k) = true) ->
  (forall i, (0 < i < maxRetries)%nat -> stopClosed E i = false) ->
  maxRetries = 10%nat
  /\ fst (do E c req ptr w) = snd (doOutcomeAt E c req ptr w 9)
  /\ (exists msg, fst (do E c req ptr w) = Some (ErrorString msg))
  /\ length (newCalls w (wd (snd (do E c req ptr w)))) = 10%nat.
Proof.
  intros Hretry Hstop.
  assert (Hrun : forall k, (k < maxRetries)%nat -> doRunsAttempt E c req ptr w k).
  { induction k as [|j IH]; intros Hk; [exact I|].
    split; [apply IH; lia|]. split; [apply Hretry; lia | apply Hstop; lia]. }
  assert (H9 : (9 < maxRetries)%nat) by (unfold maxRetries; lia).
  split; [reflexivity|].
  rewrite (do_exhausted E c req ptr w (Hrun 9%nat H9) (Hretry 9%nat H9)).
  cbn [fst snd]. split; [reflexivity|]. split.
  - apply doOutcomeAt_retry_error. exact (Hretry 9%nat H9).
  - apply doStateAt_calls.
Qed.

Lemma C3_retry_budget_exhausted_witness :
  let E := mockEnv (repeat (reply 503 "Service Unavailable") 12) [] neverStopped in
  (exists msg, fst (do E (clientWith "t") getRequest None freshWorld) = Some (ErrorString msg))
  /\ length (newCalls freshWorld (wd (snd (do E (clientWith "t") getRequest None freshWorld)))) = 10%nat.
Proof.
  intros E.
  destruct (C3_retry_budget_exhausted E (clientWith "t") getRequest None freshWorld)
    as (_ & _ & H3 & H4).
  - intros k Hk.
    do 10 (destruct k as [|k]; [vm_compute; reflexivity|]).
    unfold maxRetries in Hk. lia.
  - intros i _. reflexivity.
  - split; [exact H3 | exact H4].
Defined.

(** ** The state [do] ends in *)

Section FinalState.
Context (E : Env) (client : HttpClient).

Lemma stateAt_shift s k :
  stateAt E client (snd (attemptRequest E client s)) k = stateAt E client s (S k).
Proof. induction k as [|j IH]; [reflexivity|]. simpl in *. by rewrite IH. Qed.

(** The loop ends in the state reached after some number of attempts,
    at most as many as it has iterations left. *)
Lemma retryLoop_state n : forall i lastErr s,
  exists k, (k <= n)%nat /\ snd (retryLoop E client n i lastErr s) = stateAt E client s k.
Proof.
  induction n as [|n' IH]; intros i lastErr s.
  - exists 0%nat. split; [lia | reflexivity].
  - rewrite retryLoop_S.
    destruct (negb (Nat.eqb i 0) && stopClosed E i).
    + exists 0%nat. split; [lia | reflexivity].
    + unfold afterWait.
      destruct (attemptRequest E client s) as [[r e] s'] eqn:Ha.
      assert (Hs' : s' = snd (attemptRequest E client s)) by (by rewrite Ha).
      destruct r; simpl negb; cbv iota.
      * destruct (IH (S i) e s') as (k & Hk & Heq).
        exists (S k). split; [lia|].
        rewrite Heq, Hs'. apply stateAt_shift.
      * exists 1%nat. split; [lia|]. simpl. by rewrite Hs'.
Qed.

(** Entered at [i = 0] with an iteration left, the loop makes attempt 0
    whatever the stop channel does. *)
Lemma retryLoop_state_first n' lastErr s :
  exists k, (k <= n')%nat
            /\ snd (retryLoop E client (S n') 0 lastErr s) = stateAt E client s (S k).
Proof.
  rewrite retryLoop_S. simpl andb. cbv iota. unfold afterWait.
  destruct (attemptRequest E client s) as [[r e] s'] eqn:Ha.
  assert (Hs' : s' = snd (attemptRequest E client s)) by (by rewrite Ha).
  destruct r; simpl negb; cbv iota.
  - destruct (retryLoop_state n' 1 e s') as (k & Hk & Heq).
    exists k. split; [done|]. rewrite Heq, Hs'. apply stateAt_shift.
  - exists 0%nat. split; [lia|]. simpl. by rewrite Hs'.
Qed.

(** The network calls of the first [k] attempts, in order. *)
Lemma stateAt_netCalls s k :
  netCalls (wd (stateAt E client s k))
  = netCalls (wd s)
    ++ map (fun j => wireOf client (rq (stateAt E client s j))) (seq 0 k).
Proof.
  induction k as [|j IH]; simpl stateAt.
  - simpl. by rewrite app_nil_r.
  - rewrite attemptRequest_wd, IH, seq_S, map_app, <- app_assoc. reflexivity.
Qed.

Lemma newCalls_stateAt s k :
  newCalls (wd s) (wd (stateAt E client s k))
  = map (fun j => wireOf client (rq (stateAt E client s j))) (seq 0 k).
Proof. unfold newCalls. by rewrite stateAt_netCalls, drop_app_length. Qed.

End FinalState.

(** Every network call of an execution of [do] carries the headers that
    [do] set before entering the loop, in particular the authorization
    credential built from the token held at that moment, and uses the
    trust anchors read at that moment. *)
Lemma do_calls_headers E c req ptr w wire :
  In wire (newCalls w (wd (snd (do E c req ptr w)))) ->
  wHeader wire = Header (doRequest c req)
  /\ wHeader wire !! "Authorization" = Some ["Bearer " +:+ BearerToken (config c)]
  /\ wRootCAs wire = CACertPool (config c).
Proof.
  unfold do.
  destruct (retryLoop_state E (doClient c) maxRetries 0 None (doInit c req ptr w))
    as (k & _ & ->).
  rewrite (newCalls_stateAt E (doClient c) (doInit c req ptr w)).
  rewrite in_map_iff. intros (j & <- & _).
  rewrite stateAt_rq.
  assert (Hh : wHeader (wireOf (doClient c)
                 match j with O => rq (doInit c req ptr w)
                            | S _ => drainBody (rq (doInit c req ptr w)) end)
               = Header (doRequest c req)).
  { destruct j; simpl; [reflexivity | apply drainBody_Header]. }
  split; [exact Hh|]. split.
  - rewrite Hh. unfold doRequest, Header_Set. simpl.
    rewrite lookup_insert_ne by done. apply lookup_insert_eq.
  - by destruct j.
Qed.

(** The buffered copy of the first attempt is the body of the request;
    from the second attempt on it is empty, whatever the request: the
    first [client.Do] left the reader at its end, and the buffering step
    copies what is left. *)
Lemma do_retry_body_empty E c req ptr w j :
  reqBodyAt E c req ptr w 0 = default "" (Body req)
  /\ reqBodyAt E c req ptr w (S j) = "".
Proof.
  assert (Hdrained : forall r, default "" (Body (drainBody r)) = "").
  { by intros [m u h [b|]]. }
  unfold reqBodyAt, doStateAt. rewrite !bufferBody_fst, !stateAt_rq.
  split; [reflexivity | apply Hdrained].
Qed.

(** ** Which calls reach the executor *)

Lemma GetPod_reaches_do E c namespace podName w u :
  namespace <> "" -> podName <> "" ->
  urlParse E (Host (config c) +:+ podEndpoint namespace podName) = inr u ->
  snd (snd (GetPod E c namespace podName w))
  = wd (snd (do E c (mkRequest "GET" u ∅ None) (Some (mkPod None)) w)).
Proof.
  intros Hns Hpod Hu. unfold GetPod, NewRequest.
  apply String.eqb_neq in Hns, Hpod. rewrite Hns, Hpod, Hu.
  destruct (do _ _ _ _ _) as [[e|] s]; reflexivity.
Qed.

Lemma PatchPod_reaches_do E c namespace podName patches w js body u :
  namespace <> "" -> podName <> "" -> patches <> [] ->
  jsonPatches patches = inr js ->
  jsonMarshal E js = inr body ->
  urlParse E (Host (config c) +:+ podEndpoint namespace podName) = inr u ->
  snd (snd (PatchPod E c namespace podName patches w))
  = wd (snd (do E c (mkRequest "PATCH" u
                       (Header_Set "Content-Type" "application/json-patch+json" ∅)
                       (Some body)) None w)).
Proof.
  intros Hns Hpod Hne Hjs Hbody Hu. unfold PatchPod, NewRequest.
  apply String.eqb_neq in Hns, Hpod. rewrite Hns, Hpod, Hjs, Hbody, Hu.
  destruct patches as [|p ps]; [done|]. simpl Nat.eqb. cbv iota.
  unfold withHeader. simpl.
  destruct (do _ _ _ _ _) as [e s]; reflexivity.
Qed.



(** ** The text of the errors *)

Lemma tracks_doRequest c req : tracks req (doRequest c req).
Proof.
  unfold tracks. simpl. split; [done|]. split; [done|].
  destruct (Body req) as [b|]; [by right | by left].
Qed.

Lemma tracks_drainBody req r : tracks req r -> tracks req (drainBody r).
Proof.
  intros (Hm & Hu & _). unfold tracks.
  rewrite drainBody_Method, drainBody_URL, drainBody_Body.
  split; [done|]. split; [done|]. left. by destruct (Body r).
Qed.

Lemma status_text_surfaced E req r label past wire resp e :
  tracks req r ->
  roundTrip E past wire = inr resp ->
  In label statusPrefixes ->
  Error e = label +:+ sanitizedDebuggingInfo (drainBody r) (default "" (Body r)) resp ->
  surfaced E req e.
Proof.
  intros (Hm & Hu & Hb) Hresp Hlabel Htext.
  eapply surfaced_status; [exact Hresp | exact Hlabel | exact Hb |].
  rewrite Htext. unfold sanitizedDebuggingInfo.
  by rewrite drainBody_Method, drainBody_URL, Hm, Hu.
Qed.

Lemma attemptRequest_surfaced E client req s e :
  tracks req (rq s) ->
  snd (fst (attemptRequest E client s)) = Some e ->
  surfaced E req e.
Proof.
  intros Htr. unfold attemptRequest. rewrite bufferBody_eq.
  destruct (roundTrip _ _ _) as [text|resp] eqn:Hresp.
  { intros [= <-]. by eapply surfaced_transport. }
  destruct (classify _).
  - destruct (obj s) as [t|]; [|done].
    destruct (jsonDecode _ _ _) as [text|p] eqn:Hd; [|done].
    intros [= <-]. by eapply surfaced_decode.
  - destruct (inClusterConfig _ _) as [e'|cfg] eqn:Hc.
    { intros [= <-]. by eapply surfaced_config. }
    destruct (String.eqb _ _); intros [= <-];
      (eapply (status_text_surfaced E req (rq s) "bad status code: ");
       [exact Htr | exact Hresp | simpl; auto | reflexivity]).
  - intros [= <-]. eapply (status_text_surfaced E req (rq s) "");
      [exact Htr | exact Hresp | simpl; auto | reflexivity].
  - intros [= <-]. eapply (status_text_surfaced E req (rq s) "unexpected status code: ");
      [exact Htr | exact Hresp | simpl; auto | reflexivity].
  - intros [= <-]. eapply (status_text_surfaced E req (rq s) "unexpected status code: ");
      [exact Htr | exact Hresp | simpl; auto | reflexivity].
Qed.

Lemma retryLoop_surfaced E client req n : forall i lastErr s e,
  tracks req (rq s) ->
  (forall e', lastErr = Some e' -> surfaced E req e') ->
  fst (retryLoop E client n i lastErr s) = Some e ->
  surfaced E req e.
Proof.
  induction n as [|n' IH]; intros i lastErr s e Htr Hlast.
  - simpl. apply Hlast.
  - rewrite retryLoop_S.
    destruct (negb (Nat.eqb i 0) && stopClosed E i); [done|].
    unfold afterWait.
    pose proof (attemptRequest_surfaced E client req s) as Hatt.
    pose proof (attemptRequest_rq E client s) as Hrq.
    destruct (attemptRequest E client s) as [[r e1] s'].
    simpl in Hatt, Hrq.
    destruct r; simpl negb; cbv iota.
    + apply IH; [rewrite Hrq; by apply tracks_drainBody|].
      intros e' ->. by apply Hatt.
    + simpl. intros ->. by apply Hatt.
Qed.

(** C7 (as amended). Every error an execution of [do] returns is either
    handed over unchanged by the transport, the decoder or the
    configuration loader, or has a text made of a fixed label followed
    by "req method: M, req url: U, req body: B, resp statuscode: S,
    resp respBody: R", where M and U are the method and URL of the
    request, B is the buffered request body (the original body or the
    empty one), and S and R are the status code and body of a response
    the transport gave.  No header and no field of the configuration is
    an operand of that text. *)
Theorem C7_error_text_is_built_from_five_values
    (E : Env) (c : Client) (req : Request) (ptr : option Pod) (w : World) (e : error) :
  fst (do E c req ptr w) = Some e ->
  surfaced E req e.
Proof.
  unfold do. apply retryLoop_surfaced.
  - apply tracks_doRequest.
  - done.
Qed.

Lemma C7_error_text_is_built_from_five_values_witness :
  surfaced (mockEnv [reply 500 "boom"; reply 418 "teapot"] [] neverStopped) getRequest
    (ErrorString
       ("unexpected status code: req method: GET, req url: https://10.0.0.1:443/api/v1/namespaces/default/pods/vault-0, req body: , resp statuscode: 418, resp respBody: teapot")).
Proof.
  apply (C7_error_text_is_built_from_five_values
           (mockEnv [reply 500 "boom"; reply 418 "teapot"] [] neverStopped)
           (clientWith "s3cr3t") getRequest None freshWorld).
  vm_compute. reflexivity.
Defined.

(** C7, as first stated, fails: when the server echoes the credential it
    was sent in the body of a rejection, the error text of the failed
    call contains the bearer token, and with it the value of the
    authorization header. *)
Lemma C7_error_text_can_contain_token :
  exists e,
    fst (do echoEnv (clientWith "s3cr3t") getRequest None freshWorld) = Some e
    /\ BearerToken (config (clientWith "s3cr3t")) = "s3cr3t"
    /\ contains "s3cr3t" (Error e) = true
    /\ contains "Bearer s3cr3t" (Error e) = true.
Proof.
  eexists. split; [vm_compute; reflexivity|].
  split; [reflexivity|]. split; vm_compute; reflexivity.
Qed.

(** C1, evaluated on the code.  The first answer is 401, the
    configuration loaded afresh holds another token, the second answer
    is 200: two network calls are made, the call succeeds and the client
    now holds the new token, but the second network call still carries
    the old token in its authorization header (and still trusts the old
    certificate pool). *)
Theorem C1_retry_after_refresh_sends_old_token :
  let E := mockEnv [reply 401 "Unauthorized"; reply 200 "vault-0"]
                   [inr (mkConfig "https://10.0.0.1:443" "new-token" "new-ca.crt")]
                   neverStopped in
  let r := GetPod E (clientWith "old-token") "default" "vault-0" freshWorld in
  fst r = (Some (mkPod (Some (mkMetadata "vault-0" None))), None)
  /\ length (newCalls freshWorld (snd (snd r))) = 2%nat
  /\ BearerToken (config (fst (snd r))) = "new-token"
  /\ map (fun wire => wHeader wire !! "Authorization") (newCalls freshWorld (snd (snd r)))
     = [Some ["Bearer old-token"]; Some ["Bearer old-token"]]
  /\ map wRootCAs (newCalls freshWorld (snd (snd r))) = ["ca.crt"; "ca.crt"].
Proof.
  vm_compute. repeat split; reflexivity.
Qed.

(** C2, evaluated on the code.  A patch request that is answered 503,
    503 and then 404: the buffered copy of the request body is the
    marshalled patch document on the first attempt and is empty on the
    second and on the third, and the diagnostic text of the third
    attempt, which is the error [PatchPod] returns, shows an empty
    request body. *)
Theorem C2_retry_buffers_empty_body :
  let E := mockEnv [reply 503 "busy"; reply 503 "busy"; reply 404 "gone"] [] neverStopped in
  let c := clientWith "t" in
  let patches := [mkPatch Replace "/metadata/labels/vault-active" (VString "true")] in
  let req := mkRequest "PATCH" "https://10.0.0.1:443/api/v1/namespaces/default/pods/vault-0"
               (Header_Set "Content-Type" "application/json-patch+json" ∅)
               (Some "[{op,path,value}]") in
  fst (PatchPod E c "default" "vault-0" patches freshWorld) = fst (do E c req None freshWorld)
  /\ map (reqBodyAt E c req None freshWorld) [0; 1; 2]%nat = ["[{op,path,value}]"; ""; ""]
  /\ fst (PatchPod E c "default" "vault-0" patches freshWorld)
     = Some (ErrNotFound
         "req method: PATCH, req url: https://10.0.0.1:443/api/v1/namespaces/default/pods/vault-0, req body: , resp statuscode: 404, resp respBody: gone").
Proof.
  vm_compute. repeat split; reflexivity.
Qed.


(** * Further properties of the client *)

(** ** Status codes *)

Lemma classify_Success code :
  classify code = Success <-> In code successCodes.
Proof.
  unfold successCodes. simpl. split.
  - unfold classify. destruct code as [|p|p]; try discriminate.
    repeat (destruct p as [p|p|]; try discriminate); auto.
  - intros [<-|[<-|[<-|[<-|[]]]]]; reflexivity.
Qed.

Lemma classify_AuthFailure code :
  classify code = AuthFailure <-> In code authCodes.
Proof.
  unfold authCodes. simpl. split.
  - unfold classify. destruct code as [|p|p]; try discriminate.
    repeat (destruct p as [p|p|]; try discriminate); auto.
  - intros [<-|[<-|[]]]; reflexivity.
Qed.

Lemma classify_NotFound code :
  classify code = NotFound <-> code = 404.
Proof.
  split.
  - unfold classify. destruct code as [|p|p]; try discriminate.
    repeat (destruct p as [p|p|]; try discriminate); auto.
  - intros ->; reflexivity.
Qed.

Lemma classify_Transient code :
  classify code = Transient <-> In code transientCodes.
Proof.
  unfold transientCodes. simpl. split.
  - unfold classify. destruct code as [|p|p]; try discriminate.
    repeat (destruct p as [p|p|]; try discriminate); auto.
  - intros [<-|[<-|[<-|[<-|[]]]]]; reflexivity.
Qed.

Lemma classify_Unexpected code :
  classify code = Unexpected
  <-> ~ In code (successCodes ++ authCodes ++ [404] ++ transientCodes).
Proof.
  split.
  - intros Hc Hin. rewrite !in_app_iff in Hin.
    destruct Hin as [H|[H|[H|H]]].
    + apply classify_Success in H. congruence.
    + apply classify_AuthFailure in H. congruence.
    + destruct H as [<-|[]]. discriminate.
    + apply classify_Transient in H. congruence.
  - intros Hnot. destruct (classify code) eqn:Hc; [| | | |reflexivity]; exfalso;
      apply Hnot; rewrite !in_app_iff.
    + left. by apply classify_Success.
    + right; left. by apply classify_AuthFailure.
    + right; right; left. apply classify_NotFound in Hc. by left.
    + right; right; right. by apply classify_Transient.
Qed.

(** ** When an attempt asks for a retry *)

(** An attempt asks for a retry in exactly two situations: the answer
    has status 500, 502, 503 or 504; or it has status 401 or 403, the
    configuration loads again and its bearer token differs from the one
    the client holds.  In particular a transport error, a success, a
    404 and every other status end the loop. *)
Theorem attemptRequest_retries_iff (E : Env) (client : HttpClient) (s : St) :
  fst (fst (attemptRequest E client s)) = true
  <-> exists resp,
        roundTrip E (netCalls (wd s)) (wireOf client (rq s)) = inr resp
        /\ (In (StatusCode resp) transientCodes
            \/ (In (StatusCode resp) authCodes
                /\ exists cfg, inClusterConfig E (configLoads (wd s)) = inr cfg
                               /\ BearerToken cfg <> BearerToken (config (cl s)))).
Proof.
  split.
  - unfold attemptRequest. rewrite bufferBody_eq.
    destruct (roundTrip _ _ _) as [e|resp]; [done|].
    destruct (classify (StatusCode resp)) eqn:Hc; cbn [fst snd]; try done.
    + destruct (obj s) as [t|]; [|done]. by destruct (jsonDecode _ _ _).
    + cbn [configLoads recordCall].
      destruct (inClusterConfig _ _) as [e|cfg] eqn:Hcfg; [done|].
      destruct (String.eqb_spec (BearerToken cfg) (BearerToken (config (cl s)))); [done|].
      intros _. exists resp. split; [done|]. right.
      split; [by apply classify_AuthFailure|]. by exists cfg.
    + intros _. exists resp. split; [done|]. left. by apply classify_Transient.
  - intros (resp & Hresp & [Hcode | (Hcode & cfg & Hcfg & Hne)]).
    + by rewrite (attempt_transient E client s resp Hresp (proj2 (classify_Transient _) Hcode)).
    + by rewrite (attempt_auth_fresh_token E client s resp cfg Hresp
                    (proj2 (classify_AuthFailure _) Hcode) Hcfg Hne).
Qed.

(** ** The patch document *)

Lemma jsonPatches_all_set (patches : list Patch) :
  Forall (fun patch => Operation patch <> Unset) patches ->
  jsonPatches patches = inr (map jsonPatch patches).
Proof.
  intros Hall. induction Hall as [|patch rest Hop _ IH]; [reflexivity|].
  simpl. apply String.eqb_neq in Hop. by rewrite Hop, IH.
Qed.

(** When no patch has the unset operation, the document handed to the
    JSON encoder has one object per patch, in order, and each object has
    exactly the keys "op", "path" and "value" with the fields of its
    patch. *)
Theorem jsonPatches_builds_one_object_per_patch (patches : list Patch) :
  Forall (fun patch => Operation patch <> Unset) patches ->
  jsonPatches patches = inr (map jsonPatch patches)
  /\ forall patch key,
       jsonPatch patch !! key
       = if String.eqb key "op" then Some (VString (Operation patch))
         else if String.eqb key "path" then Some (VString (Path patch))
         else if String.eqb key "value" then Some (Value patch)
         else None.
Proof.
  intros Hall. split.
  - by apply jsonPatches_all_set.
  - intros patch key. unfold jsonPatch.
    destruct (String.eqb_spec key "op") as [->|Hop]; [by rewrite lookup_insert_eq|].
    rewrite lookup_insert_ne by done.
    destruct (String.eqb_spec key "path") as [->|Hpath]; [by rewrite lookup_insert_eq|].
    rewrite lookup_insert_ne by done.
    destruct (String.eqb_spec key "value") as [->|Hval]; [by rewrite lookup_insert_eq|].
    rewrite lookup_insert_ne by done. apply lookup_empty.
Qed.

Lemma jsonPatches_builds_one_object_per_patch_witness :
  jsonPatches [mkPatch Add "/a" (VString "b"); mkPatch Replace "/c" VNil]
  = inr (map jsonPatch [mkPatch Add "/a" (VString "b"); mkPatch Replace "/c" VNil]).
Proof.
  apply (jsonPatches_builds_one_object_per_patch
           [mkPatch Add "/a" (VString "b"); mkPatch Replace "/c" VNil]).
  repeat constructor; discriminate.
Defined.

Lemma jsonPatches_unset patches :
  (exists patch, In patch patches /\ Operation patch = Unset) ->
  jsonPatches patches = inl (ErrorString "patch operation must be set").
Proof.
  intros (patch & Hin & Hop).
  induction patches as [|p rest IH]; [done|]. simpl.
  destruct (String.eqb_spec (Operation p) Unset) as [_|Hne]; [reflexivity|].
  destruct Hin as [->|Hin]; [done|]. by rewrite (IH Hin).
Qed.

(** With proper identifiers, a patch list holding a patch whose
    operation is the unset one is refused with "patch operation must be
    set" wherever that patch stands in the list; nothing is marshalled
    and no network call is made. *)
Theorem PatchPod_rejects_unset_operation
    (E : Env) (c : Client) (namespace podName : string) (patches : list Patch) (w : World) :
  namespace <> "" -> podName <> "" ->
  (exists patch, In patch patches /\ Operation patch = Unset) ->
  PatchPod E c namespace podName patches w
  = (Some (ErrorString "patch operation must be set"), (c, w)).
Proof.
  intros Hns Hpod Hunset. unfold PatchPod.
  apply String.eqb_neq in Hns, Hpod. rewrite Hns, Hpod.
  rewrite (jsonPatches_unset patches Hunset).
  destruct Hunset as (patch & Hin & _).
  destruct patches as [|p ps]; [done|]. reflexivity.
Qed.

Lemma PatchPod_rejects_unset_operation_witness :
  PatchPod echoEnv (clientWith "t") "default" "vault-0"
    [mkPatch Add "/a" (VString "b"); mkPatch Unset "/c" VNil] freshWorld
  = (Some (ErrorString "patch operation must be set"), (clientWith "t", freshWorld)).
Proof.
  apply PatchPod_rejects_unset_operation; [done | done |].
  exists (mkPatch Unset "/c" VNil). split; [right; left; reflexivity | reflexivity].
Defined.

(** With proper identifiers and no patch at all, [PatchPod] succeeds
    without building a request: client and world are untouched, whatever
    the collaborators would have answered. *)
Theorem PatchPod_without_patches_is_a_noop
    (E : Env) (c : Client) (namespace podName : string) (w : World) :
  namespace <> "" -> podName <> "" ->
  PatchPod E c namespace podName [] w = (None, (c, w)).
Proof.
  intros Hns Hpod. unfold PatchPod.
  apply String.eqb_neq in Hns, Hpod. by rewrite Hns, Hpod.
Qed.

Lemma PatchPod_without_patches_is_a_noop_witness :
  PatchPod (mockEnv [] [] alwaysStopped) (clientWith "t") "default" "vault-0" [] freshWorld
  = (None, (clientWith "t", freshWorld)).
Proof. apply PatchPod_without_patches_is_a_noop; done. Defined.

(** When the URL built from the host and the identifiers does not
    parse, [GetPod] returns the parse error and makes no network call;
    so does [PatchPod], once its patches are marshalled. *)
Theorem operations_fail_on_unparsable_url
    (E : Env) (c : Client) (namespace podName : string) (patches : list Patch)
    (w : World) (e : string) :
  namespace <> "" -> podName <> "" ->
  urlParse E (Host (config c) +:+ podEndpoint namespace podName) = inl e ->
  GetPod E c namespace podName w = ((None, Some (ForeignError e)), (c, w))
  /\ (forall js body,
        patches <> [] -> jsonPatches patches = inr js -> jsonMarshal E js = inr body ->
        PatchPod E c namespace podName patches w = (Some (ForeignError e), (c, w))).
Proof.
  intros Hns Hpod Hurl. apply String.eqb_neq in Hns, Hpod. split.
  - unfold GetPod, NewRequest. by rewrite Hns, Hpod, Hurl.
  - intros js body Hne Hjs Hbody. unfold PatchPod, NewRequest.
    rewrite Hns, Hpod, Hjs, Hbody, Hurl.
    destruct patches; [done | reflexivity].
Qed.

Lemma operations_fail_on_unparsable_url_witness :
  let E := withStop neverStopped
             (mkEnv (roundTrip echoEnv) (inClusterConfig echoEnv) neverStopped
                    (jsonDecode echoEnv) (jsonMarshal echoEnv)
                    (fun _ => inl "invalid control character in URL")) in
  GetPod E (clientWith "t") "default" "vault-0" freshWorld
  = ((None, Some (ForeignError "invalid control character in URL")),
     (clientWith "t", freshWorld)).
Proof.
  intros E.
  apply (operations_fail_on_unparsable_url E (clientWith "t") "default" "vault-0" [] freshWorld);
    done.
Defined.

(** ** The remaining ways an attempt ends an execution *)

Lemma attempt_success E client s resp :
  roundTrip E (netCalls (wd s)) (wireOf client (rq s)) = inr resp ->
  classify (StatusCode resp) = Success ->
  attemptRequest E client s
  = let w := recordCall (wireOf client (rq s)) (wd s) in
    match obj s with
    | None => ((false, None), mkSt (cl s) (drainBody (rq s)) None w)
    | Some target =>
      match jsonDecode E (RespBody resp) target with
      | inl e => ((false, Some (ForeignError e)), mkSt (cl s) (drainBody (rq s)) (Some target) w)
      | inr decoded => ((false, None), mkSt (cl s) (drainBody (rq s)) (Some decoded) w)
      end
    end.
Proof.
  unfold attemptRequest. rewrite bufferBody_eq. by intros -> ->.
Qed.

(** An attempt that asks for a retry leaves the object behind
    [ptrToReturnObj] alone. *)
Lemma attemptRequest_obj_retry E client s :
  fst (fst (attemptRequest E client s)) = true ->
  obj (snd (attemptRequest E client s)) = obj s.
Proof.
  unfold attemptRequest. rewrite bufferBody_eq.
  destruct (roundTrip _ _ _) as [e|resp]; [done|].
  destruct (classify _); cbn [fst snd]; try done.
  - destruct (obj s) as [t|]; [|done]. by destruct (jsonDecode _ _ _).
  - destruct (inClusterConfig _ _) as [e|cfg]; [done|].
    by destruct (String.eqb _ _).
Qed.

Lemma runsAttempt_retry E client s k j :
  runsAttempt E client s k -> (j < k)%nat -> fst (outcomeAt E client s j) = true.
Proof.
  induction k as [|k IH]; intros Hrun Hj; [lia|].
  destruct Hrun as (Hrun & Hretry & _).
  destruct (decide (j = k)) as [->|Hne]; [done|]. apply IH; [done | lia].
Qed.

Lemma runsAttempt_obj E client s k :
  runsAttempt E client s k -> obj (stateAt E client s k) = obj s.
Proof.
  induction k as [|k IH]; intros Hrun; [reflexivity|].
  destruct Hrun as (Hrun & Hretry & _).
  cbn [stateAt]. rewrite attemptRequest_obj_retry by exact Hretry. by apply IH.
Qed.

(** When an attempt of an execution cannot reach the server (the
    transport reports an error), [do] returns that error right after the
    attempt: transport errors are never retried. *)
Theorem do_transport_error_is_terminal
    (E : Env) (c : Client) (req : Request) (ptr : option Pod) (w : World)
    (k : nat) (e : string) :
  (k < maxRetries)%nat ->
  doRunsAttempt E c req ptr w k ->
  doReceivesAt E c req ptr w k = inl e ->
  fst (do E c req ptr w) = Some (ForeignError e)
  /\ length (newCalls w (wd (snd (do E c req ptr w)))) = S k.
Proof.
  intros Hk Hrun Hrecv.
  pose proof (attempt_transport_error E (doClient c) _ e Hrecv) as Hout.
  change (fst (attemptRequest E (doClient c) (doStateAt E c req ptr w k)))
    with (doOutcomeAt E c req ptr w k) in Hout.
  rewrite (do_terminal E c req ptr w k Hk Hrun) by (by rewrite Hout).
  rewrite Hout. cbn [fst snd]. split; [done|]. apply doStateAt_calls.
Qed.

Lemma do_transport_error_is_terminal_witness :
  let E := mockEnv [reply 502 "bad gateway"] [] neverStopped in
  fst (do E (clientWith "t") getRequest None freshWorld) = Some (ForeignError "connection refused")
  /\ length (newCalls freshWorld (wd (snd (do E (clientWith "t") getRequest None freshWorld)))) = 2%nat.
Proof.
  intros E.
  apply (do_transport_error_is_terminal E (clientWith "t") getRequest None freshWorld 1).
  - unfold maxRetries. lia.
  - vm_compute. auto.
  - reflexivity.
Defined.

(** When an attempt of an execution receives a status code that the
    switch does not name (none of 200, 201, 202, 204, 401, 403, 404,
    500, 502, 503, 504), [do] returns an "unexpected status code" error
    right after that attempt. *)
Theorem do_unexpected_status_is_terminal
    (E : Env) (c : Client) (req : Request) (ptr : option Pod) (w : World)
    (k : nat) (resp : Response) :
  (k < maxRetries)%nat ->
  doRunsAttempt E c req ptr w k ->
  doReceivesAt E c req ptr w k = inr resp ->
  ~ In (StatusCode resp) (successCodes ++ authCodes ++ [404] ++ transientCodes) ->
  let sk := doStateAt E c req ptr w k in
  fst (do E c req ptr w)
  = Some (ErrorString ("unexpected status code: "
                       +:+ sanitizedDebuggingInfo (rq sk) (default "" (Body (rq sk))) resp))
  /\ length (newCalls w (wd (snd (do E c req ptr w)))) = S k.
Proof.
  intros Hk Hrun Hrecv Hcode sk.
  pose proof (attempt_unexpected E (doClient c) sk resp Hrecv
                (proj2 (classify_Unexpected _) Hcode)) as Hout.
  change (fst (attemptRequest E (doClient c) sk)) with (doOutcomeAt E c req ptr w k) in Hout.
  rewrite (do_terminal E c req ptr w k Hk Hrun) by (by rewrite Hout).
  rewrite Hout. cbn [fst snd]. split; [done|]. apply doStateAt_calls.
Qed.

Lemma do_unexpected_status_is_terminal_witness :
  let E := mockEnv [reply 301 "moved"; reply 200 "{}"] [] neverStopped in
  (exists msg, fst (do E (clientWith "t") getRequest None freshWorld) = Some (ErrorString msg))
  /\ length (newCalls freshWorld (wd (snd (do E (clientWith "t") getRequest None freshWorld)))) = 1%nat.
Proof.
  intros E.
  destruct (do_unexpected_status_is_terminal E (clientWith "t") getRequest None freshWorld
              0 (mkResponse 301 ∅ "moved")) as [H1 H2].
  - unfold maxRetries. lia.
  - exact I.
  - reflexivity.
  - cbn. intros H. repeat (destruct H as [H|H]; [discriminate H|]). exact H.
  - split; [eexists; exact H1 | exact H2].
Defined.

(** When an attempt of an execution receives 200, 201, 202 or 204, [do]
    returns right after it, whatever errors earlier attempts recorded:
    with a nil [ptrToReturnObj] the result is nil and the response body
    is not decoded; otherwise the result is that of decoding the
    response body into the target, which holds the decoded value when
    decoding succeeds. *)
Theorem do_success_is_terminal
    (E : Env) (c : Client) (req : Request) (ptr : option Pod) (w : World)
    (k : nat) (resp : Response) :
  (k < maxRetries)%nat ->
  doRunsAttempt E c req ptr w k ->
  doReceivesAt E c req ptr w k = inr resp ->
  In (StatusCode resp) successCodes ->
  length (newCalls w (wd (snd (do E c req ptr w)))) = S k
  /\ match ptr with
     | None => fst (do E c req ptr w) = None /\ obj (snd (do E c req ptr w)) = None
     | Some target =>
       match jsonDecode E (RespBody resp) target with
       | inl e => fst (do E c req ptr w) = Some (ForeignError e)
       | inr decoded =>
         fst (do E c req ptr w) = None /\ obj (snd (do E c req ptr w)) = Some decoded
       end
     end.
Proof.
  intros Hk Hrun Hrecv Hcode.
  pose proof (attempt_success E (doClient c) (doStateAt E c req ptr w k) resp Hrecv
                (proj2 (classify_Success _) Hcode)) as Hat.
  assert (Hobj : obj (doStateAt E c req ptr w k) = ptr).
  { unfold doStateAt. by rewrite runsAttempt_obj. }
  rewrite Hobj in Hat. cbv zeta in Hat.
  assert (Hterm : fst (doOutcomeAt E c req ptr w k) = false).
  { unfold doOutcomeAt, outcomeAt. fold (doStateAt E c req ptr w k). rewrite Hat.
    destruct ptr as [t|]; [|done]. by destruct (jsonDecode _ _ _). }
  rewrite (do_terminal E c req ptr w k Hk Hrun Hterm). cbn [fst snd].
  split; [apply doStateAt_calls|].
  unfold doOutcomeAt, outcomeAt.
  change (doStateAt E c req ptr w (S k))
    with (snd (attemptRequest E (doClient c) (doStateAt E c req ptr w k))).
  fold (doStateAt E c req ptr w k). rewrite Hat.
  destruct ptr as [t|]; [|done]. by destruct (jsonDecode _ _ _).
Qed.

Lemma do_success_is_terminal_witness :
  let E := mockEnv [reply 503 "busy"; reply 200 "vault-0"] [] neverStopped in
  fst (do E (clientWith "t") getRequest (Some (mkPod None)) freshWorld) = None
  /\ obj (snd (do E (clientWith "t") getRequest (Some (mkPod None)) freshWorld))
     = Some (mkPod (Some (mkMetadata "vault-0" None))).
Proof.
  intros E.
  refine (proj2 (do_success_is_terminal E (clientWith "t") getRequest (Some (mkPod None))
                   freshWorld 1 (mkResponse 200 ∅ "vault-0") _ _ _ _)).
  - unfold maxRetries. lia.
  - vm_compute. auto.
  - reflexivity.
  - left. reflexivity.
Defined.

(** ** What every execution of [do] keeps *)

Lemma do_first_call E c req ptr w :
  exists k, (k < maxRetries)%nat
            /\ snd (do E c req ptr w) = doStateAt E c req ptr w (S k).
Proof.
  unfold do, maxRetries, doStateAt.
  destruct (retryLoop_state_first E (doClient c) 9 None (doInit c req ptr w))
    as (k & Hk & ->).
  exists k. split; [lia | reflexivity].
Qed.

(** An execution of [do] makes at least one and at most [maxRetries]
    network calls, whatever the server, the configuration loader and the
    stop channel do. *)
Theorem do_call_count_bounds
    (E : Env) (c : Client) (req : Request) (ptr : option Pod) (w : World) :
  (1 <= length (newCalls w (wd (snd (do E c req ptr w)))) <= maxRetries)%nat.
Proof.
  destruct (do_first_call E c req ptr w) as (k & Hk & ->).
  rewrite doStateAt_calls. lia.
Qed.

Lemma doHeaders_lookup c h key :
  doHeaders c h !! key
  = if String.eqb key "Accept" then Some ["application/json"]
    else if String.eqb key "Authorization" then Some ["Bearer " +:+ BearerToken (config c)]
    else h !! key.
Proof.
  unfold doHeaders, Header_Set.
  destruct (String.eqb_spec key "Accept") as [->|Hacc]; [by rewrite lookup_insert_eq|].
  rewrite lookup_insert_ne by done.
  destruct (String.eqb_spec key "Authorization") as [->|Hauth]; [by rewrite lookup_insert_eq|].
  by rewrite lookup_insert_ne.
Qed.

(** All network calls of one execution of [do] are the same request:
    the method and URL of the request given to [do]; its headers with
    "Accept" replaced by application/json and "Authorization" replaced
    by the bearer token the client held when [do] started, every other
    header as the caller set it; and the certificate pool of that
    moment.  Only the body can differ: it is the request's body or
    empty. *)
Theorem do_calls_repeat_one_request
    (E : Env) (c : Client) (req : Request) (ptr : option Pod) (w : World)
    (wire : WireRequest) :
  In wire (newCalls w (wd (snd (do E c req ptr w)))) ->
  wMethod wire = Method req
  /\ wURL wire = URL req
  /\ wRootCAs wire = CACertPool (config c)
  /\ (wBody wire = default "" (Body req) \/ wBody wire = "")
  /\ forall key,
       wHeader wire !! key
       = if String.eqb key "Accept" then Some ["application/json"]
         else if String.eqb key "Authorization"
              then Some ["Bearer " +:+ BearerToken (config c)]
         else Header req !! key.
Proof.
  unfold do.
  destruct (retryLoop_state E (doClient c) maxRetries 0 None (doInit c req ptr w))
    as (k & _ & ->).
  rewrite (newCalls_stateAt E (doClient c) (doInit c req ptr w)).
  rewrite in_map_iff. intros (j & <- & _).
  rewrite stateAt_rq. cbn [rq doInit].
  assert (Hr : forall r, r = doRequest c req \/ r = drainBody (doRequest c req) ->
            Method r = Method req /\ URL r = URL req
            /\ Header r = doHeaders c (Header req)
            /\ (default "" (Body r) = default "" (Body req) \/ default "" (Body r) = "")).
  { intros r [-> | ->].
    - repeat split; auto.
    - rewrite drainBody_Method, drainBody_URL, drainBody_Header, drainBody_Body.
      repeat split. right. by destruct (Body (doRequest c req)). }
  destruct (Hr (match j with O => doRequest c req | S _ => drainBody (doRequest c req) end))
    as (Hm & Hu & Hh & Hb); [destruct j; auto|].
  unfold wireOf. cbn [wMethod wURL wHeader wBody wRootCAs].
  split; [done|]. split; [done|]. split; [reflexivity|]. split; [done|].
  intros key. rewrite Hh. apply doHeaders_lookup.
Qed.

Lemma do_calls_repeat_one_request_witness :
  let E := mockEnv [reply 503 "busy"; reply 200 "{}"] [] neverStopped in
  let wire := mkWire "GET" (URL getRequest) (doHeaders (clientWith "t") ∅) "" "ca.crt" in
  In wire (newCalls freshWorld (wd (snd (do E (clientWith "t") getRequest None freshWorld))))
  /\ wMethod wire = Method getRequest
  /\ wHeader wire !! "Authorization" = Some ["Bearer t"].
Proof.
  intros E wire.
  assert (Hin : In wire (newCalls freshWorld
                   (wd (snd (do E (clientWith "t") getRequest None freshWorld))))).
  { left. reflexivity. }
  split; [exact Hin|].
  destruct (do_calls_repeat_one_request E (clientWith "t") getRequest None freshWorld wire Hin)
    as (Hm & _ & _ & _ & Hh).
  split; [exact Hm | exact (Hh "Authorization")].
Defined.

(** ** The client's configuration *)



Lemma attemptRequest_no_auth E client s :
  (forall resp, roundTrip E (netCalls (wd s)) (wireOf client (rq s)) = inr resp ->
                ~ In (StatusCode resp) authCodes) ->
  cl (snd (attemptRequest E client s)) = cl s
  /\ configLoads (wd (snd (attemptRequest E client s))) = configLoads (wd s).
Proof.
  intros Hno. unfold attemptRequest. rewrite bufferBody_eq.
  destruct (roundTrip _ _ _) as [e|resp]; [done|].
  destruct (classify (StatusCode resp)) eqn:Hc; cbn [fst snd]; try done.
  - destruct (obj s) as [t|]; [|done]. by destruct (jsonDecode _ _ _).
  - exfalso. apply (Hno resp eq_refl). by apply classify_AuthFailure.
Qed.

(** When the server never answers 401 or 403, [do] does not load the
    configuration and leaves the client as it was. *)
Theorem do_without_auth_failure_keeps_client
    (E : Env) (c : Client) (req : Request) (ptr : option Pod) (w : World) :
  (forall past wire resp, roundTrip E past wire = inr resp ->
                          ~ In (StatusCode resp) authCodes) ->
  cl (snd (do E c req ptr w)) = c
  /\ configLoads (wd (snd (do E c req ptr w))) = configLoads w.
Proof.
  intros Hno. unfold do.
  destruct (retryLoop_state E (doClient c) maxRetries 0 None (doInit c req ptr w))
    as (k & _ & ->).
  induction k as [|j [IHc IHw]]; [done|].
  cbn [stateAt].
  destruct (attemptRequest_no_auth E (doClient c)
              (stateAt E (doClient c) (doInit c req ptr w) j)) as [-> ->]; [|done].
  intros resp. apply Hno.
Qed.

Lemma do_without_auth_failure_keeps_client_witness :
  let E := mkEnv (fun _ _ => reply 503 "busy") (fun _ => inr (mkConfig "h" "other" "ca"))
                 neverStopped (jsonDecode echoEnv) (jsonMarshal echoEnv) (urlParse echoEnv) in
  cl (snd (do E (clientWith "t") getRequest None freshWorld)) = clientWith "t"
  /\ configLoads (wd (snd (do E (clientWith "t") getRequest None freshWorld))) = 0%nat.
Proof.
  intros E.
  apply (do_without_auth_failure_keeps_client E (clientWith "t") getRequest None freshWorld).
  intros past wire resp Hresp. cbn in Hresp. injection Hresp as <-.
  cbn. intros [H|[H|[]]]; discriminate H.
Defined.

(** When an attempt of an execution receives 401 or 403 and the
    configuration loaded afresh carries another bearer token, the
    attempt asks for a retry with a "bad status code" error, exactly one
    configuration load is recorded, and from then on the client holds
    the loaded configuration. *)
Theorem do_refresh_adopts_loaded_config
    (E : Env) (c : Client) (req : Request) (ptr : option Pod) (w : World)
    (k : nat) (resp : Response) (cfg : Config) :
  doReceivesAt E c req ptr w k = inr resp ->
  In (StatusCode resp) authCodes ->
  let sk := doStateAt E c req ptr w k in
  inClusterConfig E (configLoads (wd sk)) = inr cfg ->
  BearerToken cfg <> BearerToken (config (cl sk)) ->
  doOutcomeAt E c req ptr w k
  = (true, Some (ErrorString ("bad status code: "
                   +:+ sanitizedDebuggingInfo (rq sk) (default "" (Body (rq sk))) resp)))
  /\ cl (doStateAt E c req ptr w (S k)) = mkClient cfg
  /\ configLoads (wd (doStateAt E c req ptr w (S k))) = S (configLoads (wd sk)).
Proof.
  intros Hrecv Hcode sk Hcfg Hne.
  pose proof (attempt_auth_fresh_token E (doClient c) sk resp cfg Hrecv
                (proj2 (classify_AuthFailure _) Hcode) Hcfg Hne) as Hat.
  unfold doOutcomeAt, outcomeAt.
  change (doStateAt E c req ptr w (S k)) with (snd (attemptRequest E (doClient c) sk)).
  fold (doStateAt E c req ptr w k). fold sk. by rewrite Hat.
Qed.

Lemma do_refresh_adopts_loaded_config_witness :
  let E := mockEnv [reply 401 "Unauthorized"] [inr (mkConfig "h" "new" "ca")] neverStopped in
  cl (doStateAt E (clientWith "old") getRequest None freshWorld 1) = mkClient (mkConfig "h" "new" "ca").
Proof.
  intros E.
  refine (proj1 (proj2 (do_refresh_adopts_loaded_config E (clientWith "old") getRequest None
                          freshWorld 0 (mkResponse 401 ∅ "Unauthorized")
                          (mkConfig "h" "new" "ca") _ _ _ _))).
  - reflexivity.
  - left. reflexivity.
  - reflexivity.
  - discriminate.
Defined.

(** ** What a nil result means *)

Lemma outcomeAt_shift E client s j :
  outcomeAt E client (snd (attemptRequest E client s)) j = outcomeAt E client s (S j).
Proof. unfold outcomeAt. by rewrite stateAt_shift. Qed.

Lemma attempt_nil_is_success E client s :
  fst (attemptRequest E client s) = (false, None) ->
  exists resp, roundTrip E (netCalls (wd s)) (wireOf client (rq s)) = inr resp
               /\ classify (StatusCode resp) = Success.
Proof.
  unfold attemptRequest. rewrite bufferBody_eq.
  destruct (roundTrip _ _ _) as [e|resp]; [done|].
  destruct (classify (StatusCode resp)) eqn:Hc; cbn [fst snd]; try done.
  - intros _. by exists resp.
  - destruct (inClusterConfig _ _) as [e|cfg]; [done|].
    by destruct (String.eqb _ _).
Qed.

Lemma retryLoop_nil E client n : forall i lastErr s,
  (forall j, stopClosed E j = false) ->
  fst (retryLoop E client n i lastErr s) = None ->
  (n = 0%nat /\ lastErr = None)
  \/ exists k, (k < n)%nat
               /\ (forall j, (j < k)%nat -> fst (outcomeAt E client s j) = true)
               /\ outcomeAt E client s k = (false, None).
Proof.
  induction n as [|n' IH]; intros i lastErr s Hstop; [by left|].
  rewrite retryLoop_S, Hstop, andb_false_r. unfold afterWait.
  pose proof (attemptRequest_retry_error E client s) as Herr.
  destruct (attemptRequest E client s) as [[r e] s'] eqn:Ha.
  assert (Hs' : s' = snd (attemptRequest E client s)) by (by rewrite Ha).
  cbn [fst snd] in Herr.
  destruct r; simpl negb; cbv iota.
  - intros Hnil. right.
    destruct (IH (S i) e s' Hstop Hnil) as [[_ ->] | (k & Hk & Hretry & Hlast)].
    { by destruct (Herr eq_refl). }
    exists (S k). split; [lia|]. subst s'. split.
    + intros [|j] Hj.
      * unfold outcomeAt. cbn [stateAt]. by rewrite Ha.
      * rewrite <- outcomeAt_shift. apply Hretry. lia.
    + by rewrite <- outcomeAt_shift.
  - cbn [fst]. intros ->. right. exists 0%nat.
    split; [lia|]. split; [intros j Hj; lia|].
    unfold outcomeAt. cbn [stateAt]. by rewrite Ha.
Qed.

Lemma runsAttempt_intro E client s k :
  (forall j, (j < k)%nat -> fst (outcomeAt E client s j) = true) ->
  (forall j, stopClosed E j = false) ->
  runsAttempt E client s k.
Proof.
  intros Hretry Hstop. induction k as [|k IH]; [exact I|].
  split; [apply IH; intros j Hj; apply Hretry; lia|].
  split; [apply Hretry; lia | apply Hstop].
Qed.

(** When no wait is ended by the stop channel, a nil result of [do]
    means that the last network call was answered with 200, 201, 202 or
    204: [do] never reports success on its own. *)
Theorem do_nil_means_success_status
    (E : Env) (c : Client) (req : Request) (ptr : option Pod) (w : World) :
  (forall j, stopClosed E j = false) ->
  fst (do E c req ptr w) = None ->
  exists k resp,
    (k < maxRetries)%nat
    /\ doRunsAttempt E c req ptr w k
    /\ doReceivesAt E c req ptr w k = inr resp
    /\ In (StatusCode resp) successCodes
    /\ length (newCalls w (wd (snd (do E c req ptr w)))) = S k.
Proof.
  intros Hstop Hnil.
  destruct (retryLoop_nil E (doClient c) maxRetries 0 None (doInit c req ptr w) Hstop Hnil)
    as [[Hmax _] | (k & Hk & Hretry & Hlast)]; [discriminate Hmax|].
  assert (Hrun : doRunsAttempt E c req ptr w k) by (by apply runsAttempt_intro).
  destruct (attempt_nil_is_success E (doClient c) _ Hlast) as (resp & Hresp & Hc).
  exists k, resp. split; [done|]. split; [done|]. split; [exact Hresp|].
  split; [by apply classify_Success|].
  rewrite (do_terminal E c req ptr w k Hk Hrun).
  - apply doStateAt_calls.
  - unfold doOutcomeAt. by rewrite Hlast.
Qed.

Lemma do_nil_means_success_status_witness :
  let E := mockEnv [reply 503 "busy"; reply 204 ""] [] neverStopped in
  exists k resp,
    (k < maxRetries)%nat
    /\ doRunsAttempt E (clientWith "t") getRequest None freshWorld k
    /\ doReceivesAt E (clientWith "t") getRequest None freshWorld k = inr resp
    /\ In (StatusCode resp) successCodes
    /\ length (newCalls freshWorld (wd (snd (do E (clientWith "t") getRequest None freshWorld)))) = S k.
Proof.
  intros E.
  apply (do_nil_means_success_status E (clientWith "t") getRequest None freshWorld).
  - reflexivity.
  - vm_compute. reflexivity.
Defined.

(** ** What [GetPod] hands back *)

Lemma attemptRequest_obj_is_Some E client s :
  is_Some (obj s) -> is_Some (obj (snd (attemptRequest E client s))).
Proof.
  intros [t Ht]. unfold attemptRequest. rewrite bufferBody_eq, Ht.
  destruct (roundTrip _ _ _) as [e|resp]; [by eexists|].
  destruct (classify _); cbn [fst snd]; try by eexists.
  - destruct (jsonDecode _ _ _); by eexists.
  - destruct (inClusterConfig _ _) as [e|cfg]; [by eexists|].
    destruct (String.eqb _ _); by eexists.
Qed.

Lemma stateAt_obj_is_Some E client s k :
  is_Some (obj s) -> is_Some (obj (stateAt E client s k)).
Proof.
  intros Hs. induction k as [|j IH]; [done|].
  cbn [stateAt]. by apply attemptRequest_obj_is_Some.
Qed.

(** [GetPod] returns either a pod and no error, or an error and no pod,
    never both and never neither. *)
Theorem GetPod_returns_pod_or_error
    (E : Env) (c : Client) (namespace podName : string) (w : World) :
  (exists pod, fst (GetPod E c namespace podName w) = (Some pod, None))
  \/ (exists e, fst (GetPod E c namespace podName w) = (None, Some e)).
Proof.
  unfold GetPod.
  destruct (String.eqb namespace ""); [right; by eexists|].
  destruct (String.eqb podName ""); [right; by eexists|].
  destruct (NewRequest _ _ _ _) as [e|req]; [right; by eexists|].
  pose proof (retryLoop_state E (doClient c) maxRetries 0 None
                (doInit c req (Some (mkPod None)) w)) as (k & _ & Hs).
  fold (do E c req (Some (mkPod None)) w) in Hs.
  destruct (do E c req (Some (mkPod None)) w) as [[e|] s]; [right; by eexists|].
  cbn [snd] in Hs. left.
  destruct (stateAt_obj_is_Some E (doClient c) (doInit c req (Some (mkPod None)) w) k)
    as [pod Hpod]; [by eexists|].
  exists pod. cbn [fst]. by rewrite Hs, Hpod.
Qed.

(** When a retry of [GetPod] is cut short by the stop channel, the
    caller gets a nil error together with the empty pod that [GetPod]
    allocated: a pod without metadata, not the pod on the server. *)
Theorem GetPod_cancelled_returns_empty_pod
    (E : Env) (c : Client) (namespace podName : string) (w : World) (u : string) (j : nat) :
  namespace <> "" -> podName <> "" ->
  urlParse E (Host (config c) +:+ podEndpoint namespace podName) = inr u ->
  let req := mkRequest "GET" u ∅ None in
  (S j < maxRetries)%nat ->
  doRunsAttempt E c req (Some (mkPod None)) w j ->
  fst (doOutcomeAt E c req (Some (mkPod None)) w j) = true ->
  stopClosed E (S j) = true ->
  fst (GetPod E c namespace podName w) = (Some (mkPod None), None).
Proof.
  intros Hns Hpod Hu req Hj Hrun Hretry Hstop.
  unfold GetPod, NewRequest. apply String.eqb_neq in Hns, Hpod.
  rewrite Hns, Hpod, Hu. fold req.
  rewrite (do_cancelled E c req (Some (mkPod None)) w j Hj Hrun Hretry Hstop).
  cbn [fst]. f_equal.
  unfold doStateAt. cbn [stateAt].
  rewrite attemptRequest_obj_retry by exact Hretry.
  by rewrite runsAttempt_obj.
Qed.

Lemma GetPod_cancelled_returns_empty_pod_witness :
  fst (GetPod (mockEnv [reply 503 "busy"; reply 200 "vault-0"] [] alwaysStopped)
              (clientWith "t") "default" "vault-0" freshWorld)
  = (Some (mkPod None), None).
Proof.
  apply (GetPod_cancelled_returns_empty_pod
           (mockEnv [reply 503 "busy"; reply 200 "vault-0"] [] alwaysStopped)
           (clientWith "t") "default" "vault-0" freshWorld
           "https://10.0.0.1:443/api/v1/namespaces/default/pods/vault-0" 0).
  - done.
  - done.
  - reflexivity.
  - unfold maxRetries. lia.
  - exact I.
  - reflexivity.
  - reflexivity.
Defined.

(** ** The requests the two operations send *)

Lemma do_first_wire E c req ptr w :
  exists rest, newCalls w (wd (snd (do E c req ptr w)))
               = wireOf (doClient c) (doRequest c req) :: rest.
Proof.
  destruct (do_first_call E c req ptr w) as (k & _ & ->).
  unfold doStateAt. rewrite (newCalls_stateAt E (doClient c) (doInit c req ptr w)).
  change (seq 0 (S k)) with (0%nat :: seq 1 k). cbn [map]. by eexists.
Qed.

(** With proper identifiers and a URL that parses, the first network
    call of [GetPod] is a GET of host + /api/v1/namespaces/NS/pods/NAME
    without body, whose only headers are the bearer token of the
    client's configuration and "Accept: application/json", under the
    configuration's certificate pool. *)
Theorem GetPod_first_call
    (E : Env) (c : Client) (namespace podName : string) (w : World) (u : string) :
  namespace <> "" -> podName <> "" ->
  urlParse E (Host (config c) +:+ "/api/v1/namespaces/" +:+ namespace
              +:+ "/pods/" +:+ podName) = inr u ->
  exists rest,
    newCalls w (snd (snd (GetPod E c namespace podName w)))
    = mkWire "GET" u (doHeaders c ∅) "" (CACertPool (config c)) :: rest.
Proof.
  intros Hns Hpod Hu.
  rewrite (GetPod_reaches_do E c namespace podName w u Hns Hpod Hu).
  apply do_first_wire.
Qed.

Lemma GetPod_first_call_witness :
  exists rest,
    newCalls freshWorld
      (snd (snd (GetPod (mockEnv [reply 200 "vault-0"] [] neverStopped)
                        (clientWith "t") "default" "vault-0" freshWorld)))
    = mkWire "GET" "https://10.0.0.1:443/api/v1/namespaces/default/pods/vault-0"
             (doHeaders (clientWith "t") ∅) "" "ca.crt" :: rest.
Proof.
  apply (GetPod_first_call (mockEnv [reply 200 "vault-0"] [] neverStopped)
           (clientWith "t") "default" "vault-0" freshWorld); done.
Defined.

(** With proper identifiers, at least one patch, none of them unset, a
    document that marshals and a URL that parses, the first network call
    of [PatchPod] is a PATCH of host + /api/v1/namespaces/NS/pods/NAME
    whose body is the marshalled list of patch objects and whose headers
    are "Content-Type: application/json-patch+json", the bearer token
    and "Accept: application/json". *)
Theorem PatchPod_first_call
    (E : Env) (c : Client) (namespace podName : string) (patches : list Patch)
    (w : World) (body u : string) :
  namespace <> "" -> podName <> "" -> patches <> [] ->
  Forall (fun patch => Operation patch <> Unset) patches ->
  jsonMarshal E (map jsonPatch patches) = inr body ->
  urlParse E (Host (config c) +:+ "/api/v1/namespaces/" +:+ namespace
              +:+ "/pods/" +:+ podName) = inr u ->
  exists rest,
    newCalls w (snd (snd (PatchPod E c namespace podName patches w)))
    = mkWire "PATCH" u
        (doHeaders c (Header_Set "Content-Type" "application/json-patch+json" ∅))
        body (CACertPool (config c)) :: rest.
Proof.
  intros Hns Hpod Hne Hall Hbody Hu.
  rewrite (PatchPod_reaches_do E c namespace podName patches w
             (map jsonPatch patches) body u Hns Hpod Hne
             (jsonPatches_all_set patches Hall) Hbody Hu).
  apply do_first_wire.
Qed.

Lemma PatchPod_first_call_witness :
  exists rest,
    newCalls freshWorld
      (snd (snd (PatchPod (mockEnv [reply 200 "{}"] [] neverStopped)
                          (clientWith "t") "default" "vault-0"
                          [mkPatch Add "/metadata/labels/a" (VString "b")] freshWorld)))
    = mkWire "PATCH" "https://10.0.0.1:443/api/v1/namespaces/default/pods/vault-0"
        (doHeaders (clientWith "t") (Header_Set "Content-Type" "application/json-patch+json" ∅))
        "[{op,path,value}]" "ca.crt" :: rest.
Proof.
  apply (PatchPod_first_call (mockEnv [reply 200 "{}"] [] neverStopped)
           (clientWith "t") "default" "vault-0"
           [mkPatch Add "/metadata/labels/a" (VString "b")] freshWorld); try done.
  repeat constructor. discriminate.
Defined.

(** ** Creating a client *)

(** [New] makes no network call.  When the configuration loader fails,
    [New] returns the loader's error and no client.  Otherwise it
    returns a client holding the loaded configuration, and a [GetPod] on
    that client goes to the loaded host with the loaded bearer token and
    certificate pool. *)
Theorem New_client_uses_loaded_config (E : Env) (w : World) :
  netCalls (snd (New E w)) = netCalls w
  /\ match inClusterConfig E (configLoads w) with
     | inl e => fst (New E w) = (None, Some e)
     | inr cfg =>
       fst (New E w) = (Some (mkClient cfg), None)
       /\ forall namespace podName u,
            namespace <> "" -> podName <> "" ->
            urlParse E (Host cfg +:+ "/api/v1/namespaces/" +:+ namespace
                        +:+ "/pods/" +:+ podName) = inr u ->
            exists rest,
              newCalls (snd (New E w))
                (snd (snd (GetPod E (mkClient cfg) namespace podName (snd (New E w)))))
              = mkWire "GET" u
                  (Header_Set "Accept" "application/json"
                     (Header_Set "Authorization" ("Bearer " +:+ BearerToken cfg) ∅))
                  "" (CACertPool cfg) :: rest
     end.
Proof.
  unfold New. destruct (inClusterConfig E (configLoads w)) as [e|cfg]; cbn [fst snd].
  - done.
  - split; [done|]. split; [done|].
    intros namespace podName u Hns Hpod Hu.
    rewrite (GetPod_reaches_do E (mkClient cfg) namespace podName _ u Hns Hpod Hu).
    apply do_first_wire.
Qed.

(** When an attempt of a [GetPod] receives 200, 201, 202 or 204,
    [GetPod] returns the pod decoded from that response body and a nil
    error, or, when the body does not decode, the decoder's error and no
    pod; errors recorded by earlier attempts are dropped. *)
Theorem GetPod_returns_decoded_pod
    (E : Env) (c : Client) (namespace podName : string) (w : World) (u : string)
    (k : nat) (resp : Response) :
  namespace <> "" -> podName <> "" ->
  urlParse E (Host (config c) +:+ podEndpoint namespace podName) = inr u ->
  let req := mkRequest "GET" u ∅ None in
  (k < maxRetries)%nat ->
  doRunsAttempt E c req (Some (mkPod None)) w k ->
  doReceivesAt E c req (Some (mkPod None)) w k = inr resp ->
  In (StatusCode resp) successCodes ->
  fst (GetPod E c namespace podName w)
  = match jsonDecode E (RespBody resp) (mkPod None) with
    | inl e => (None, Some (ForeignError e))
    | inr pod => (Some pod, None)
    end.
Proof.
  intros Hns Hpod Hu req Hk Hrun Hrecv Hcode.
  pose proof (attempt_success E (doClient c)
                (doStateAt E c req (Some (mkPod None)) w k) resp Hrecv
                (proj2 (classify_Success _) Hcode)) as Hat.
  assert (Hobj : obj (doStateAt E c req (Some (mkPod None)) w k) = Some (mkPod None)).
  { unfold doStateAt. by rewrite runsAttempt_obj. }
  rewrite Hobj in Hat. cbv zeta in Hat.
  assert (Hterm : fst (doOutcomeAt E c req (Some (mkPod None)) w k) = false).
  { unfold doOutcomeAt, outcomeAt. fold (doStateAt E c req (Some (mkPod None)) w k).
    rewrite Hat. by destruct (jsonDecode _ _ _). }
  unfold GetPod, NewRequest. apply String.eqb_neq in Hns, Hpod.
  rewrite Hns, Hpod, Hu. fold req.
  rewrite (do_terminal E c req (Some (mkPod None)) w k Hk Hrun Hterm).
  unfold doOutcomeAt, outcomeAt.
  change (doStateAt E c req (Some (mkPod None)) w (S k))
    with (snd (attemptRequest E (doClient c) (doStateAt E c req (Some (mkPod None)) w k))).
  fold (doStateAt E c req (Some (mkPod None)) w k). rewrite Hat.
  by destruct (jsonDecode _ _ _).
Qed.

Lemma GetPod_returns_decoded_pod_witness :
  fst (GetPod (mockEnv [reply 503 "busy"; reply 200 "vault-0"] [] neverStopped)
              (clientWith "t") "default" "vault-0" freshWorld)
  = (Some (mkPod (Some (mkMetadata "vault-0" None))), None).
Proof.
  apply (GetPod_returns_decoded_pod
           (mockEnv [reply 503 "busy"; reply 200 "vault-0"] [] neverStopped)
           (clientWith "t") "default" "vault-0" freshWorld
           "https://10.0.0.1:443/api/v1/namespaces/default/pods/vault-0"
           1 (mkResponse 200 ∅ "vault-0")).
  - done.
  - done.
  - reflexivity.
  - unfold maxRetries. lia.
  - vm_compute. auto.
  - reflexivity.
  - left. reflexivity.
Defined.
